(** * yaradb_client: a shallow embedding of [src/yaradb_client/client.py]

    The client is a thin binding over the [requests] library: every method
    builds one HTTP request, hands it to the session, and translates the
    answer with [_handle_response].  The development below follows the
    source top to bottom: Python values, the part of [uuid] and [requests]
    the client touches, the exception classes, and then the methods of
    [YaraClient] in the order in which the source declares them. *)

From Stdlib Require Import String Ascii List ZArith NArith Bool Lia.
From Stdlib Require Import DecimalString.
Import ListNotations.

Local Open Scope list_scope.
Local Open Scope string_scope.

(** ** Python values *)

Module Py.

(** The values [json.loads] produces, which are also the values the client
    puts in request payloads.  A Python [str] is [JStr]; an [int] is [JInt];
    a [float] is carried by its [repr] (the shortest decimal that reads back
    to it), since the client never computes with one.  A [dict] keeps its
    insertion order.  Characters of a [string] stand for the code points
    0..255. *)
#[local] Set Warnings "-register-all".
Inductive json : Type :=
| JNull
| JBool (b : bool)
| JInt (z : Z)
| JFloat (repr : string)
| JStr (s : string)
| JList (l : list json)
| JDict (d : list (string * json)).

Definition dict : Type := list (string * json).

(** [d.get(key)]: the value stored at [key], if any. *)
Fixpoint dict_lookup (d : dict) (key : string) : option json :=
  match d with
  | [] => None
  | (k, v) :: d' => if String.eqb k key then Some v else dict_lookup d' key
  end.

(** [d.get(key, default)] *)
Definition dict_get (d : dict) (key : string) (default : json) : json :=
  match dict_lookup d key with
  | Some v => v
  | None => default
  end.

(** [key in d] *)
Definition dict_contains (d : dict) (key : string) : bool :=
  match dict_lookup d key with
  | Some _ => true
  | None => false
  end.

(** [d[key] = v]: overwrite in place, or append a new entry. *)
Fixpoint dict_set (d : dict) (key : string) (v : json) : dict :=
  match d with
  | [] => [(key, v)]
  | (k, w) :: d' =>
      if String.eqb k key then (k, v) :: d' else (k, w) :: dict_set d' key v
  end.

(** Truth value of a container: empty is false. *)
Definition truthy_str (s : string) : bool :=
  match s with EmptyString => false | String _ _ => true end.

Definition truthy_list {A : Type} (l : list A) : bool :=
  match l with [] => false | _ :: _ => true end.

(** [sep.join(parts)] *)
Fixpoint join (sep : string) (parts : list string) : string :=
  match parts with
  | [] => ""
  | [p] => p
  | p :: ps => p ++ sep ++ join sep ps
  end.

(** [str(n)] for an [int]. *)
Definition str_int (z : Z) : string := NilZero.string_of_int (Z.to_int z).

Definition hexdigit (n : N) : ascii :=
  match n with
  | 0%N => "0" | 1%N => "1" | 2%N => "2" | 3%N => "3"
  | 4%N => "4" | 5%N => "5" | 6%N => "6" | 7%N => "7"
  | 8%N => "8" | 9%N => "9" | 10%N => "a" | 11%N => "b"
  | 12%N => "c" | 13%N => "d" | 14%N => "e" | _ => "f"
  end%char.

(** [repr] of a [str], as CPython's [unicode_repr] computes it on code
    points below 256: the quote is the single quote unless the text holds a
    single quote and no double quote; the quote and the backslash are escaped, tab, newline
    and return are written [\t], [\n], [\r], and the code points that are not
    printable (controls, 0x7f..0xa0 and the soft hyphen 0xad) are written
    [\xhh]. *)
Fixpoint contains_char (c : ascii) (s : string) : bool :=
  match s with
  | EmptyString => false
  | String a s' => Ascii.eqb a c || contains_char c s'
  end.

Definition dquote : ascii := ascii_of_nat 34.
Definition squote : ascii := ascii_of_nat 39.
Definition backslash : ascii := ascii_of_nat 92.

Definition printable (n : N) : bool :=
  (N.leb 32 n && N.ltb n 127) || (N.ltb 160 n && negb (N.eqb n 173)).

Definition escape_char (quote c : ascii) : string :=
  let n := N_of_ascii c in
  if Ascii.eqb c quote || Ascii.eqb c backslash then String backslash (String c "")
  else if N.eqb n 9 then String backslash "t"
  else if N.eqb n 10 then String backslash "n"
  else if N.eqb n 13 then String backslash "r"
  else if printable n then String c ""
  else String backslash
         (String "x" (String (hexdigit (N.div n 16)) (String (hexdigit (N.modulo n 16)) ""))).

Fixpoint escape (quote : ascii) (s : string) : string :=
  match s with
  | EmptyString => ""
  | String c s' => escape_char quote c ++ escape quote s'
  end.

Definition repr_str (s : string) : string :=
  let quote :=
    if contains_char squote s && negb (contains_char dquote s) then dquote else squote in
  String quote (escape quote s ++ String quote "").

(** [repr(v)] *)
Fixpoint repr (v : json) : string :=
  match v with
  | JNull => "None"
  | JBool true => "True"
  | JBool false => "False"
  | JInt z => str_int z
  | JFloat r => r
  | JStr s => repr_str s
  | JList l => "[" ++ join ", " (map repr l) ++ "]"
  | JDict d =>
      "{" ++ join ", " (map (fun kv => repr_str (fst kv) ++ ": " ++ repr (snd kv)) d) ++ "}"
  end.

(** [type(v).__name__] *)
Definition type_name (v : json) : string :=
  match v with
  | JNull => "NoneType"
  | JBool _ => "bool"
  | JInt _ => "int"
  | JFloat _ => "float"
  | JStr _ => "str"
  | JList _ => "list"
  | JDict _ => "dict"
  end.

(** [str(v)], which is also what an f-string field [{v}] expands to. *)
Definition str (v : json) : string :=
  match v with
  | JStr s => s
  | _ => repr v
  end.

(** [a == b] on decoded values whose right-hand side is a [str]. *)
Definition eq_str (a : json) (s : string) : bool :=
  match a with
  | JStr t => String.eqb t s
  | _ => false
  end.

(** [s.rstrip('/')] *)
Fixpoint rstrip_slash (s : string) : string :=
  match s with
  | EmptyString => ""
  | String c s' =>
      match rstrip_slash s' with
      | EmptyString => if Ascii.eqb c "/" then "" else String c ""
      | r => String c r
      end
  end.

End Py.

Import Py.


(** ** The part of [uuid] the client uses *)

Module Uuid.

(** A [uuid.UUID] holds its 128-bit [int]; the constructor refuses any
    other value. *)
Record UUID : Type := {
  int : N;
  int_range : N.ltb int (2 ^ 128) = true
}.

(** ['%x' % n]: the digits are produced from the least significant one;
    the fuel bounds their number. *)
Fixpoint hex_digits (fuel : nat) (n : N) (acc : string) : string :=
  match fuel with
  | O => acc
  | S fuel' =>
      let acc' := String (hexdigit (N.modulo n 16)) acc in
      if N.eqb (N.div n 16) 0 then acc' else hex_digits fuel' (N.div n 16) acc'
  end.

Definition format_x (n : N) : string :=
  hex_digits (S (N.to_nat (N.log2 n))) n "".

Fixpoint zeros (k : nat) : string :=
  match k with
  | O => ""
  | S k' => String "0" (zeros k')
  end.

(** ['%0<width>x' % n] *)
Definition format_0x (width : nat) (n : N) : string :=
  let digits := format_x n in
  zeros (width - String.length digits) ++ digits.

(** [s[i:j]] and [s[i:]] for [0 <= i <= j]. *)
Definition slice (s : string) (i j : nat) : string := substring i (j - i) s.
Definition slice_from (s : string) (i : nat) : string :=
  substring i (String.length s - i) s.

(** [UUID.__str__] *)
Definition str (u : UUID) : string :=
  let hex := format_0x 32 (int u) in
  slice hex 0 8 ++ "-" ++ slice hex 8 12 ++ "-" ++ slice hex 12 16 ++ "-"
    ++ slice hex 16 20 ++ "-" ++ slice_from hex 20.

End Uuid.

(** ** The part of [requests] the client uses *)

Module Requests.

(** What a call such as [session.post(url, json=payload)] hands to the
    library. *)
Record Request : Type := {
  method : string;
  url : string;
  json : option Py.json;
  params : option dict;
  timeout : option Z
}.

(** What [response.json()] does: it returns the decoded body, or raises
    [requests.JSONDecodeError] with the decoder's complaint. *)
Inductive Decoded : Type :=
| Json (v : Py.json)
| NotJson (complaint : string).

(** What the client reads of a [requests.Response]. *)
Record Response : Type := {
  status_code : Z;
  text : string;
  decoded : Decoded
}.

(** The exception classes of [requests.exceptions] that matter to an
    [except] clause of the client; [RequestException] stands for every
    other one (a missing schema, too many redirects, ...). *)
Inductive exception_class : Type :=
| ConnectionError
| ProxyError
| SSLError
| ConnectTimeout
| Timeout
| ReadTimeout
| JSONDecodeError
| RequestException.

(** [isinstance(e, requests.ConnectionError)]: [ProxyError], [SSLError] and
    [ConnectTimeout] derive from [ConnectionError]. *)
Definition isinstance_ConnectionError (c : exception_class) : bool :=
  match c with
  | ConnectionError | ProxyError | SSLError | ConnectTimeout => true
  | _ => false
  end.

(** [isinstance(e, requests.Timeout)]: [ConnectTimeout] and [ReadTimeout]
    derive from [Timeout]. *)
Definition isinstance_Timeout (c : exception_class) : bool :=
  match c with
  | Timeout | ConnectTimeout | ReadTimeout => true
  | _ => false
  end.

End Requests.

(** ** The exception classes of the client *)

Inductive YaraErrorClass : Type :=
| YaraError
| YaraConnectionError
| YaraNotFoundError
| YaraConflictError
| YaraBadRequestError.

(** An instance of [YaraError] or of one of its subclasses; [args] is the
    text given to [Exception.__init__]. *)
Record YaraErrorObject : Type := {
  cls : YaraErrorClass;
  message : json;
  status_code : option Z;
  args : string
}.

Definition str_status (status_code : option Z) : string :=
  match status_code with
  | Some n => str_int n
  | None => "None"
  end.

(** [YaraError.__init__], run for the class [c]. *)
Definition YaraError_init (c : YaraErrorClass) (message : json) (status_code : option Z)
  : YaraErrorObject :=
  {| cls := c;
     message := message;
     status_code := status_code;
     args := "Status code: " ++ str_status status_code ++ ", Error: " ++ Py.str message |}.

(** [YaraConnectionError.__init__]; [original_error] is [str] of the
    exception caught. *)
Definition YaraConnectionError_init (host : string) (original_error : string)
  : YaraErrorObject :=
  YaraError_init YaraConnectionError
    (JStr ("Failed to connect to " ++ host ++ ". Is the server running? Error: "
             ++ original_error))
    None.

(** Everything a method of the client can raise. *)
Inductive exn : Type :=
| Yara (e : YaraErrorObject)
| RequestsError (c : Requests.exception_class) (msg : string)
| AttributeError (msg : string).

Inductive result (A : Type) : Type :=
| Return (a : A)
| Raise (e : exn).
Arguments Return {A} a.
Arguments Raise {A} e.

(** ** Calls that talk to the server

    A method either finishes, or issues an HTTP request and goes on with what
    the session gives back: a response, or the exception it raised. *)

Inductive io (A : Type) : Type :=
| Done (r : result A)
| Http (req : Requests.Request) (k : result Requests.Response -> io A).
Arguments Done {A} r.
Arguments Http {A} req k.

Definition ret {A : Type} (a : A) : io A := Done (Return a).
Definition raise {A : Type} (e : exn) : io A := Done (Raise e).

Fixpoint bind {A B : Type} (p : io A) (f : A -> io B) : io B :=
  match p with
  | Done (Return a) => f a
  | Done (Raise e) => Done (Raise e)
  | Http req k => Http req (fun r => bind (k r) f)
  end.

Notation "x <- c ;; k" := (bind c (fun x => k))
  (at level 61, c at next level, right associativity).

(** [try: p  except ...: handler]: the handler answers [None] for an
    exception no clause matches. *)
Fixpoint try_except {A : Type} (p : io A) (handler : exn -> option (io A)) : io A :=
  match p with
  | Done (Return a) => Done (Return a)
  | Done (Raise e) =>
      match handler e with
      | Some q => q
      | None => Done (Raise e)
      end
  | Http req k => Http req (fun r => try_except (k r) handler)
  end.

(** Running a call against a server: the requests issued, in order, and the
    outcome. *)
Fixpoint run {A : Type} (server : Requests.Request -> result Requests.Response) (p : io A)
  : list Requests.Request * result A :=
  match p with
  | Done r => ([], r)
  | Http req k =>
      let (trace, r) := run server (k (server req)) in (req :: trace, r)
  end.

Definition requests_sent {A : Type} (server : Requests.Request -> result Requests.Response)
  (p : io A) : list Requests.Request := fst (run server p).

Definition outcome {A : Type} (server : Requests.Request -> result Requests.Response)
  (p : io A) : result A := snd (run server p).

(** [session.request(method, url, ...)] and its shorthands. *)
Definition session_request (method url : string) (json : option Py.json)
  (params : option dict) (timeout : option Z) : io Requests.Response :=
  Http {| Requests.method := method; Requests.url := url; Requests.json := json;
          Requests.params := params; Requests.timeout := timeout |} Done.

Definition session_get (url : string) (timeout : option Z) : io Requests.Response :=
  session_request "GET" url None None timeout.

Definition session_post (url : string) (json : option Py.json) (params : option dict)
  : io Requests.Response :=
  session_request "POST" url json params None.

Definition session_put (url : string) (json : option Py.json) : io Requests.Response :=
  session_request "PUT" url json None None.

Definition session_delete (url : string) : io Requests.Response :=
  session_request "DELETE" url None None None.

(** [response.json()] *)
Definition response_json (response : Requests.Response) : result Py.json :=
  match Requests.decoded response with
  | Requests.Json v => Return v
  | Requests.NotJson complaint => Raise (RequestsError Requests.JSONDecodeError complaint)
  end.

(** [v.get(key)]: of the decoded values only a [dict] has the method. *)
Definition attr_get (v : Py.json) (key : string) : result Py.json :=
  match v with
  | JDict d => Return (dict_get d key JNull)
  | _ => Raise (AttributeError ("'" ++ type_name v ++ "' object has no attribute 'get'"))
  end.

(** ** The client *)

(** A default argument: [None] is an argument the caller left out. *)
Definition default {A : Type} (d : A) (o : option A) : A :=
  match o with
  | Some a => a
  | None => d
  end.

(** A document identifier, [Union[str, uuid.UUID]], and [str(doc_id)]. *)
Inductive DocId : Type :=
| IdStr (s : string)
| IdUUID (u : Uuid.UUID).

Definition str_doc_id (doc_id : DocId) : string :=
  match doc_id with
  | IdStr s => s
  | IdUUID u => Uuid.str u
  end.

(** The session of a client is the server [run] is given; the object itself
    holds the host. *)
Record YaraClient : Type := { host : string }.

(** [YaraClient.__init__] *)
Definition YaraClient_init (host : option string) : YaraClient :=
  let host := default "http://127.0.0.1:8000" host in
  {| host := rstrip_slash host |}.

(** [YaraClient._handle_response] *)
Definition _handle_response (response : Requests.Response) : result Py.json :=
  if (Requests.status_code response =? 200)%Z then
    match response_json response with
    | Return v => Return v
    | Raise (RequestsError Requests.JSONDecodeError _) =>
        Raise (Yara (YaraError_init YaraError (JStr "Invalid JSON response from server")
                       (Some (Requests.status_code response))))
    | Raise e => Raise e
    end
  else
    let error_detail :=
      match response_json response with
      | Return (JDict response_json) =>
          dict_get response_json "detail" (JStr "Unknown API error")
      | Return response_json => JStr (Py.str response_json)
      | Raise _ =>
          JStr (if truthy_str (Requests.text response) then Requests.text response
                else "Unknown API error")
      end in
    if (Requests.status_code response =? 404)%Z then
      Raise (Yara (YaraError_init YaraNotFoundError error_detail (Some 404%Z)))
    else if (Requests.status_code response =? 409)%Z then
      Raise (Yara (YaraError_init YaraConflictError error_detail (Some 409%Z)))
    else if (Requests.status_code response =? 400)%Z then
      Raise (Yara (YaraError_init YaraBadRequestError error_detail (Some 400%Z)))
    else if (Requests.status_code response =? 422)%Z then
      Raise (Yara (YaraError_init YaraBadRequestError
                     (JStr ("Validation Error: " ++ Py.str error_detail)) (Some 422%Z)))
    else
      Raise (Yara (YaraError_init YaraError error_detail
                     (Some (Requests.status_code response)))).

(** The clauses [except requests.ConnectionError: return False] and
    [except requests.Timeout: return False] of [ping]. *)
Definition ping_except (e : exn) : option (io bool) :=
  match e with
  | RequestsError c _ =>
      if Requests.isinstance_ConnectionError c then Some (ret false)
      else if Requests.isinstance_Timeout c then Some (ret false)
      else None
  | _ => None
  end.

(** [YaraClient.ping] *)
Definition ping (self : YaraClient) : io bool :=
  try_except
    (response <- session_get (host self ++ "/ping") (Some 3%Z) ;;
     if (Requests.status_code response =? 200)%Z then
       body <- Done (response_json response) ;;
       status <- Done (attr_get body "status") ;;
       ret (eq_str status "alive")
     else ret false)
    ping_except.

(** The clause [except requests.ConnectionError as e: raise
    YaraConnectionError(self.host, e)] every other method ends with. *)
Definition except_ConnectionError {A : Type} (self : YaraClient) (e : exn)
  : option (io A) :=
  match e with
  | RequestsError c msg =>
      if Requests.isinstance_ConnectionError c
      then Some (raise (Yara (YaraConnectionError_init (host self) msg)))
      else None
  | _ => None
  end.

(** *** Document operations *)

Definition create (self : YaraClient) (table_name name : string) (body : dict)
  : io Py.json :=
  let url := host self ++ "/document/create" in
  let payload :=
    [("table_name", JStr table_name); ("name", JStr name); ("body", JDict body)] in
  try_except
    (response <- session_post url (Some (JDict payload)) None ;;
     Done (_handle_response response))
    (except_ConnectionError self).

Definition get (self : YaraClient) (doc_id : DocId) : io Py.json :=
  let url := host self ++ "/document/get/" ++ str_doc_id doc_id in
  try_except
    (response <- session_get url None ;;
     Done (_handle_response response))
    (except_ConnectionError self).

Definition find (self : YaraClient) (filter_body : dict) (include_archived : option bool)
  : io Py.json :=
  let include_archived := default false include_archived in
  let url := host self ++ "/document/find" in
  let params := [("include_archived", JBool include_archived)] in
  try_except
    (response <- session_post url (Some (JDict filter_body)) (Some params) ;;
     Done (_handle_response response))
    (except_ConnectionError self).

Definition update (self : YaraClient) (doc_id : DocId) (version : Z) (body : dict)
  : io Py.json :=
  let url := host self ++ "/document/update/" ++ str_doc_id doc_id in
  let payload := [("version", JInt version); ("body", JDict body)] in
  try_except
    (response <- session_put url (Some (JDict payload)) ;;
     Done (_handle_response response))
    (except_ConnectionError self).

Definition archive (self : YaraClient) (doc_id : DocId) : io Py.json :=
  let url := host self ++ "/document/archive/" ++ str_doc_id doc_id in
  try_except
    (response <- session_put url None ;;
     Done (_handle_response response))
    (except_ConnectionError self).

Definition combine (self : YaraClient) (document_ids : list DocId) (name : string)
  (merge_strategy : option string) : io Py.json :=
  let merge_strategy := default "overwrite" merge_strategy in
  let url := host self ++ "/document/combine" in
  let payload :=
    [("name", JStr name);
     ("document_ids", JList (map (fun doc_id => JStr (str_doc_id doc_id)) document_ids));
     ("merge_strategy", JStr merge_strategy)] in
  try_except
    (response <- session_post url (Some (JDict payload)) None ;;
     Done (_handle_response response))
    (except_ConnectionError self).

(** *** Table operations *)

Definition create_table (self : YaraClient) (name : string) (mode : option string)
  (schema : option dict) (unique_fields : option (list string)) (read_only : option bool)
  : io Py.json :=
  let mode := default "free" mode in
  let read_only := default false read_only in
  let url := host self ++ "/table/create" in
  let payload :=
    [("name", JStr name); ("mode", JStr mode); ("read_only", JBool read_only)] in
  let payload :=
    match schema with
    | Some schema =>
        if truthy_list schema then dict_set payload "schema_definition" (JDict schema)
        else payload
    | None => payload
    end in
  let payload :=
    match unique_fields with
    | Some unique_fields =>
        if truthy_list unique_fields
        then dict_set payload "unique_fields" (JList (map JStr unique_fields))
        else payload
    | None => payload
    end in
  try_except
    (response <- session_post url (Some (JDict payload)) None ;;
     Done (_handle_response response))
    (except_ConnectionError self).

Definition list_tables (self : YaraClient) : io Py.json :=
  let url := host self ++ "/table/list" in
  try_except
    (response <- session_get url None ;;
     Done (_handle_response response))
    (except_ConnectionError self).

Definition get_table (self : YaraClient) (name : string) : io Py.json :=
  let url := host self ++ "/table/" ++ name in
  try_except
    (response <- session_get url None ;;
     Done (_handle_response response))
    (except_ConnectionError self).

Definition delete_table (self : YaraClient) (name : string) : io Py.json :=
  let url := host self ++ "/table/" ++ name in
  try_except
    (response <- session_delete url ;;
     Done (_handle_response response))
    (except_ConnectionError self).

Definition get_table_documents (self : YaraClient) (name : string) : io Py.json :=
  let url := host self ++ "/table/" ++ name ++ "/documents" in
  try_except
    (response <- session_get url None ;;
     Done (_handle_response response))
    (except_ConnectionError self).

(** *** System operations *)

Definition self_destruct (self : YaraClient) (verification_phrase : string)
  (safety_pin : Z) (confirm : option bool) : io Py.json :=
  let confirm := default true confirm in
  let url := host self ++ "/system/self-destruct" in
  let payload :=
    [("verification_phrase", JStr verification_phrase);
     ("safety_pin", JInt safety_pin);
     ("confirm", JBool confirm)] in
  try_except
    (response <- session_request "DELETE" url (Some (JDict payload)) None None ;;
     Done (_handle_response response))
    (except_ConnectionError self).

(** ** Every operation but [ping]

    A call of one of the twelve methods that go through [_handle_response],
    with its arguments; [invoke] performs it. *)

Inductive Call : Type :=
| CallCreate (table_name name : string) (body : dict)
| CallGet (doc_id : DocId)
| CallFind (filter_body : dict) (include_archived : option bool)
| CallUpdate (doc_id : DocId) (version : Z) (body : dict)
| CallArchive (doc_id : DocId)
| CallCombine (document_ids : list DocId) (name : string) (merge_strategy : option string)
| CallCreateTable (name : string) (mode : option string) (schema : option dict)
    (unique_fields : option (list string)) (read_only : option bool)
| CallListTables
| CallGetTable (name : string)
| CallDeleteTable (name : string)
| CallGetTableDocuments (name : string)
| CallSelfDestruct (verification_phrase : string) (safety_pin : Z) (confirm : option bool).

Definition invoke (self : YaraClient) (c : Call) : io Py.json :=
  match c with
  | CallCreate table_name name body => create self table_name name body
  | CallGet doc_id => get self doc_id
  | CallFind filter_body include_archived => find self filter_body include_archived
  | CallUpdate doc_id version body => update self doc_id version body
  | CallArchive doc_id => archive self doc_id
  | CallCombine document_ids name merge_strategy =>
      combine self document_ids name merge_strategy
  | CallCreateTable name mode schema unique_fields read_only =>
      create_table self name mode schema unique_fields read_only
  | CallListTables => list_tables self
  | CallGetTable name => get_table self name
  | CallDeleteTable name => delete_table self name
  | CallGetTableDocuments name => get_table_documents self name
  | CallSelfDestruct verification_phrase safety_pin confirm =>
      self_destruct self verification_phrase safety_pin confirm
  end.

(** ** Observations used by the statements *)

(** Whether the JSON body of a request is a mapping that holds [key], and
    the value it holds there. *)
Definition payload_lookup (req : Requests.Request) (key : string) : option Py.json :=
  match Requests.json req with
  | Some (JDict payload) => dict_lookup payload key
  | _ => None
  end.

Definition payload_has (req : Requests.Request) (key : string) : bool :=
  match payload_lookup req key with
  | Some _ => true
  | None => false
  end.

(** The request [ping] issues. *)
Definition ping_request (self : YaraClient) : Requests.Request :=
  {| Requests.method := "GET"; Requests.url := host self ++ "/ping";
     Requests.json := None; Requests.params := None; Requests.timeout := Some 3%Z |}.

(** [s.split('/')] *)
Fixpoint split_slash (s : string) : list string :=
  match s with
  | EmptyString => [EmptyString]
  | String c s' =>
      if Ascii.eqb c "/" then EmptyString :: split_slash s'
      else match split_slash s' with
           | [] => [String c EmptyString]
           | seg :: segs => String c seg :: segs
           end
  end.

(** The textual form of a UUID: 36 characters, a hyphen at the offsets 8,
    13, 18 and 23, a lowercase hexadecimal digit everywhere else. *)
Definition is_hex (c : ascii) : bool :=
  let n := N_of_ascii c in
  (N.leb 48 n && N.leb n 57) || (N.leb 97 n && N.leb n 102).

Fixpoint all_hex (s : string) : bool :=
  match s with
  | EmptyString => true
  | String c s' => is_hex c && all_hex s'
  end.

Fixpoint canonical_from (pos : nat) (s : string) : bool :=
  match s with
  | EmptyString => Nat.eqb pos 36
  | String c s' =>
      (if Nat.eqb pos 8 || Nat.eqb pos 13 || Nat.eqb pos 18 || Nat.eqb pos 23
       then Ascii.eqb c "-" else is_hex c)
      && canonical_from (S pos) s'
  end.

Definition canonical_uuid_text (s : string) : bool := canonical_from 0 s.

(** Whether a text ends with [/], and the text made of [k] of them. *)
Fixpoint ends_with_slash (s : string) : bool :=
  match s with
  | EmptyString => false
  | String c EmptyString => Ascii.eqb c "/"
  | String _ s' => ends_with_slash s'
  end.

Fixpoint slashes (k : nat) : string :=
  match k with
  | O => EmptyString
  | S k' => String "/" (slashes k')
  end.

(** Reading a UUID back from its text: the hyphens are dropped and the
    digits are read in base 16. *)
Fixpoint remove_hyphens (s : string) : string :=
  match s with
  | EmptyString => EmptyString
  | String c s' =>
      if Ascii.eqb c "-" then remove_hyphens s' else String c (remove_hyphens s')
  end.

Definition hex_digit_value (c : ascii) : N :=
  let n := N_of_ascii c in
  if N.leb 97 n then n - 87 else n - 48.

Fixpoint hex_value (s : string) : N :=
  match s with
  | EmptyString => 0
  | String c s' => hex_digit_value c * 16 ^ N.of_nat (String.length s') + hex_value s'
  end.

(** A session raises exceptions of [requests] only. *)
Definition raises_only_requests_errors
  (server : Requests.Request -> result Requests.Response) : Prop :=
  forall req e, server req = Raise e -> exists k msg, e = RequestsError k msg.

(** ** Fixtures for the concrete cases *)

Definition local_client : YaraClient := YaraClient_init None.

(** A server that gives the same answer to whatever it is asked. *)
Definition answers (response : Requests.Response)
  : Requests.Request -> result Requests.Response :=
  fun _ => Return response.

(** A host nobody listens on. *)
Definition refuses (msg : string) : Requests.Request -> result Requests.Response :=
  fun _ => Raise (RequestsError Requests.ConnectionError msg).

(** A host that accepts the connection and then stays silent. *)
Definition times_out (msg : string) : Requests.Request -> result Requests.Response :=
  fun _ => Raise (RequestsError Requests.ReadTimeout msg).

Definition plain_get (url : string) : Requests.Request :=
  {| Requests.method := "GET"; Requests.url := url; Requests.json := None;
     Requests.params := None; Requests.timeout := None |}.

Definition quoted (s : string) : string := String dquote (s ++ String dquote "").

(** The answers of the scenarios: a validation failure, a page that is not
    JSON served with status 200, and a 201 with an empty mapping. *)
Definition field_required : Requests.Response :=
  {| Requests.status_code := 422;
     Requests.text := "{" ++ quoted "detail" ++ ": " ++ quoted "field required" ++ "}";
     Requests.decoded := Requests.Json (JDict [("detail", JStr "field required")]) |}.

Definition html_page : Requests.Response :=
  {| Requests.status_code := 200;
     Requests.text := "<html>It works!</html>";
     Requests.decoded := Requests.NotJson "Expecting value: line 1 column 1 (char 0)" |}.

Definition created_201 : Requests.Response :=
  {| Requests.status_code := 201;
     Requests.text := "{}";
     Requests.decoded := Requests.Json (JDict []) |}.

(** A 400 whose detail is a list, as a validating server may send. *)
Definition detail_list_400 : Requests.Response :=
  {| Requests.status_code := 400;
     Requests.text := "{" ++ quoted "detail" ++ ": [" ++ quoted "name" ++ ", "
                        ++ quoted "missing" ++ "]}";
     Requests.decoded :=
       Requests.Json (JDict [("detail", JList [JStr "name"; JStr "missing"])]) |}.

Definition alive : Requests.Response :=
  {| Requests.status_code := 200;
     Requests.text := "{" ++ quoted "status" ++ ": " ++ quoted "alive" ++ "}";
     Requests.decoded := Requests.Json (JDict [("status", JStr "alive")]) |}.

Definition list_200 : Requests.Response :=
  {| Requests.status_code := 200;
     Requests.text := "[]";
     Requests.decoded := Requests.Json (JList []) |}.

Definition sample_uuid : Uuid.UUID :=
  {| Uuid.int := 0x12345678123456781234567812345678; Uuid.int_range := eq_refl |}.

(** ** Sanity checks of the embedding on concrete values *)

Example repr_list_ex :
  Py.str (JList [JStr "a"; JInt (-12); JNull; JBool true; JDict [("k", JStr "its")]])
  = "['a', -12, None, True, {'k': 'its'}]".
Proof. reflexivity. Qed.

Example repr_quote_ex :
  repr (JStr "it's") = String dquote ("it's" ++ String dquote "").
Proof. reflexivity. Qed.

Example repr_escape_ex :
  repr (JStr (String (ascii_of_nat 10) (String (ascii_of_nat 1) "z"))) =
  String squote (String backslash ("n" ++ String backslash ("x01z" ++ String squote ""))).
Proof. reflexivity. Qed.

Example rstrip_ex : rstrip_slash "http://db:8000//" = "http://db:8000".
Proof. reflexivity. Qed.

Example split_ex : split_slash "/table/x/documents" = [""; "table"; "x"; "documents"].
Proof. reflexivity. Qed.

Example uuid_str_ex :
  forall H, Uuid.str {| Uuid.int := 0x12345678123456781234567812345678; Uuid.int_range := H |}
            = "12345678-1234-5678-1234-567812345678".
Proof. intros H. reflexivity. Qed.

Example uuid_str_small_ex :
  forall H, Uuid.str {| Uuid.int := 0xabc; Uuid.int_range := H |}
            = "00000000-0000-0000-0000-000000000abc".
Proof. intros H. reflexivity. Qed.

Example ping_alive_ex : run (answers alive) (ping local_client)
  = ([ping_request local_client], Return true).
Proof. reflexivity. Qed.

Example ping_refused_ex :
  outcome (refuses "Connection refused") (ping local_client) = Return false.
Proof. reflexivity. Qed.

Example ping_list_ex :
  outcome (answers list_200) (ping local_client)
  = Raise (AttributeError "'list' object has no attribute 'get'").
Proof. reflexivity. Qed.

Example update_scenario_ex :
  run (answers alive) (update local_client (IdStr "abc") 3 [("x", JInt 1)])
  = ([{| Requests.method := "PUT";
         Requests.url := "http://127.0.0.1:8000/document/update/abc";
         Requests.json := Some (JDict [("version", JInt 3);
                                       ("body", JDict [("x", JInt 1)])]);
         Requests.params := None; Requests.timeout := None |}],
     Return (JDict [("status", JStr "alive")])).
Proof. reflexivity. Qed.

Example validation_scenario_ex :
  outcome (answers field_required) (create local_client "users" "ann" [])
  = Raise (Yara {| cls := YaraBadRequestError;
                   message := JStr "Validation Error: field required";
                   status_code := Some 422%Z;
                   args := "Status code: 422, Error: Validation Error: field required" |}).
Proof. reflexivity. Qed.

Example get_uuid_ex :
  requests_sent (answers alive) (get local_client (IdUUID sample_uuid))
  = [plain_get "http://127.0.0.1:8000/document/get/12345678-1234-5678-1234-567812345678"].
Proof. reflexivity. Qed.

Example args_ex :
  args (YaraError_init YaraNotFoundError (JStr "no such document") (Some 404%Z))
  = "Status code: 404, Error: no such document".
Proof. reflexivity. Qed.

(** ** Shared lemmas: every method is one request and one translation *)

(** Case analysis on the conditions of the [if]s in the goal. *)
Ltac split_ifs :=
  repeat match goal with
         | |- context [if ?b then _ else _] => destruct b
         end.

(** Case analysis on the status of [response], in the order in which
    [_handle_response] tests it, once 200 is excluded. *)
Ltac by_status response :=
  destruct (Z.eqb_spec (Requests.status_code response) 404) as [? | ?];
  [| destruct (Z.eqb_spec (Requests.status_code response) 409) as [? | ?];
     [| destruct (Z.eqb_spec (Requests.status_code response) 400) as [? | ?];
        [| destruct (Z.eqb_spec (Requests.status_code response) 422) as [? | ?]]]].

Section OneRoundTrip.

Variable self : YaraClient.
Variable server : Requests.Request -> result Requests.Response.

(** The body all twelve methods share once the request is built. *)
Lemma invoke_unfold (c : Call) :
  exists req,
    invoke self c =
    try_except (response <- Http req Done ;; Done (_handle_response response))
               (except_ConnectionError self).
Proof.
  destruct c; cbn [invoke]; eexists; reflexivity.
Qed.

(** The clause for connection errors can only raise. *)
Lemma except_ConnectionError_raises (A : Type) (e : exn) (q : io A) :
  except_ConnectionError self e = Some q -> exists e', q = Done (Raise e').
Proof.
  unfold except_ConnectionError.
  destruct e as [y | k msg | msg]; try discriminate.
  destruct (Requests.isinstance_ConnectionError k); [| discriminate].
  intros H. inversion H. eexists. reflexivity.
Qed.

(** Such a body issues its request and no other, whatever comes back. *)
Lemma sent_round_trip (req : Requests.Request) :
  requests_sent server
    (try_except (response <- Http req Done ;; Done (_handle_response response))
                (except_ConnectionError self))
  = [req].
Proof.
  unfold requests_sent. cbn.
  destruct (server req) as [response | e]; cbn.
  - destruct (_handle_response response) as [v | e]; cbn; [reflexivity |].
    destruct (except_ConnectionError self e) as [q |] eqn:Hq; cbn; [| reflexivity].
    destruct (except_ConnectionError_raises _ _ _ Hq) as [e' ->]. reflexivity.
  - destruct (except_ConnectionError self e) as [q |] eqn:Hq; cbn; [| reflexivity].
    destruct (except_ConnectionError_raises _ _ _ Hq) as [e' ->]. reflexivity.
Qed.

Lemma invoke_one_request (c : Call) :
  exists req, requests_sent server (invoke self c) = [req].
Proof.
  destruct (invoke_unfold c) as [req E]. exists req. rewrite E.
  apply sent_round_trip.
Qed.

(** [_handle_response] returns the decoded body or raises a [YaraError]. *)
Lemma handle_response_cases (response : Requests.Response) :
  (exists v, _handle_response response = Return v) \/
  (exists e, _handle_response response = Raise (Yara e)).
Proof.
  unfold _handle_response, response_json.
  destruct (Requests.status_code response =? 200)%Z.
  - destruct (Requests.decoded response); [left | right]; eexists; reflexivity.
  - right. split_ifs; eexists; reflexivity.
Qed.

(** When the server answers, the outcome of a call is what
    [_handle_response] makes of the answer. *)
Lemma outcome_of_response (c : Call) (req : Requests.Request)
  (response : Requests.Response) :
  requests_sent server (invoke self c) = [req] ->
  server req = Return response ->
  outcome server (invoke self c) = _handle_response response.
Proof.
  destruct (invoke_unfold c) as [req' E]. rewrite E.
  unfold requests_sent, outcome. cbn.
  destruct (run server _) as [trace r] eqn:Hrun. cbn.
  intros Hsent Hanswer. injection Hsent as Hreq _. subst req'.
  rewrite Hanswer in Hrun. cbn in Hrun.
  destruct (handle_response_cases response) as [[v Hv] | [e He]];
    rewrite Hv || rewrite He; rewrite Hv in Hrun || rewrite He in Hrun;
    cbn in Hrun; inversion Hrun; reflexivity.
Qed.

(** When the session raises, the outcome is decided by the [except]
    clause. *)
Lemma outcome_of_exception (c : Call) (req : Requests.Request) (e : exn) :
  requests_sent server (invoke self c) = [req] ->
  server req = Raise e ->
  outcome server (invoke self c) =
  match e with
  | RequestsError k msg =>
      if Requests.isinstance_ConnectionError k
      then Raise (Yara (YaraConnectionError_init (host self) msg))
      else Raise e
  | _ => Raise e
  end.
Proof.
  destruct (invoke_unfold c) as [req' E]. rewrite E.
  unfold requests_sent, outcome. cbn.
  destruct (run server _) as [trace r] eqn:Hrun. cbn.
  intros Hsent Hanswer. injection Hsent as Hreq _. subst req'.
  rewrite Hanswer in Hrun. cbn in Hrun.
  destruct e as [y | k msg | msg]; cbn in Hrun.
  - inversion Hrun; reflexivity.
  - destruct (Requests.isinstance_ConnectionError k); cbn in Hrun;
      inversion Hrun; reflexivity.
  - inversion Hrun; reflexivity.
Qed.

End OneRoundTrip.

(** ** Error translation *)

(** C1. For every operation other than ping, when the server answers with a
    status other than 200 (so in particular with any status outside 2xx),
    the call raises a [YaraError] whose [status_code] is the status
    received, and whose class is decided by the status: 404 gives
    [YaraNotFoundError], 409 [YaraConflictError], 400 [YaraBadRequestError],
    422 [YaraBadRequestError] with a message that starts with
    [Validation Error: ], and every other status the base class
    [YaraError]. *)
Theorem C1_error_kind_by_status :
  forall (self : YaraClient) (server : Requests.Request -> result Requests.Response)
         (c : Call) (req : Requests.Request) (response : Requests.Response),
    requests_sent server (invoke self c) = [req] ->
    server req = Return response ->
    Requests.status_code response <> 200%Z ->
    exists e,
      outcome server (invoke self c) = Raise (Yara e) /\
      status_code e = Some (Requests.status_code response) /\
      (Requests.status_code response = 404%Z -> cls e = YaraNotFoundError) /\
      (Requests.status_code response = 409%Z -> cls e = YaraConflictError) /\
      (Requests.status_code response = 400%Z -> cls e = YaraBadRequestError) /\
      (Requests.status_code response = 422%Z ->
       cls e = YaraBadRequestError /\
       exists detail, message e = JStr ("Validation Error: " ++ detail)) /\
      (Requests.status_code response <> 404%Z ->
       Requests.status_code response <> 409%Z ->
       Requests.status_code response <> 400%Z ->
       Requests.status_code response <> 422%Z ->
       cls e = YaraError).
Proof.
  intros self server c req response Hsent Hanswer Hstatus.
  rewrite (outcome_of_response self server c req response Hsent Hanswer).
  unfold _handle_response.
  destruct (Z.eqb_spec (Requests.status_code response) 200) as [E | _];
    [contradiction |].
  by_status response;
    eexists; (split; [reflexivity |]); cbn [status_code cls message YaraError_init];
    repeat split; intros; try congruence; try lia.
  eexists; reflexivity.
Qed.

(** The scenario of the spec: a 422 whose body is a mapping with the detail
    [field required]. *)
Lemma C1_witness :
  exists e,
    outcome (answers field_required) (invoke local_client (CallGet (IdStr "abc")))
    = Raise (Yara e) /\
    status_code e = Some (Requests.status_code field_required) /\
    (Requests.status_code field_required = 404%Z -> cls e = YaraNotFoundError) /\
    (Requests.status_code field_required = 409%Z -> cls e = YaraConflictError) /\
    (Requests.status_code field_required = 400%Z -> cls e = YaraBadRequestError) /\
    (Requests.status_code field_required = 422%Z ->
     cls e = YaraBadRequestError /\
     exists detail, message e = JStr ("Validation Error: " ++ detail)) /\
    (Requests.status_code field_required <> 404%Z ->
     Requests.status_code field_required <> 409%Z ->
     Requests.status_code field_required <> 400%Z ->
     Requests.status_code field_required <> 422%Z ->
     cls e = YaraError).
Proof.
  apply (C1_error_kind_by_status local_client (answers field_required)
           (CallGet (IdStr "abc"))
           (plain_get "http://127.0.0.1:8000/document/get/abc") field_required).
  - reflexivity.
  - reflexivity.
  - discriminate.
Defined.

(** ** The liveness check *)

(** What [ping] does hold to: a connection failure or a timeout of the
    transport is reported as [False]. *)
Lemma ping_swallows_transport_failure
  (self : YaraClient) (server : Requests.Request -> result Requests.Response)
  (k : Requests.exception_class) (msg : string) :
  server (ping_request self) = Raise (RequestsError k msg) ->
  Requests.isinstance_ConnectionError k || Requests.isinstance_Timeout k = true ->
  run server (ping self) = ([ping_request self], Return false).
Proof.
  intros Hanswer Hk. unfold ping, ping_request in *. cbn.
  rewrite Hanswer. cbn.
  destruct (Requests.isinstance_ConnectionError k); cbn; [reflexivity |].
  cbn in Hk. rewrite Hk. reflexivity.
Qed.

(** Any status other than 200 is reported as [False], whatever the body. *)
Lemma ping_false_on_other_status
  (self : YaraClient) (server : Requests.Request -> result Requests.Response)
  (response : Requests.Response) :
  server (ping_request self) = Return response ->
  Requests.status_code response <> 200%Z ->
  outcome server (ping self) = Return false.
Proof.
  intros Hanswer Hstatus. unfold outcome, ping, ping_request in *. cbn.
  rewrite Hanswer. cbn.
  destruct (Z.eqb_spec (Requests.status_code response) 200); [contradiction |].
  reflexivity.
Qed.

(** [ping] answers [True] exactly on a 200 whose body is a mapping with
    [status] equal to [alive]. *)
Lemma ping_true_iff
  (self : YaraClient) (server : Requests.Request -> result Requests.Response) :
  outcome server (ping self) = Return true <->
  exists response d,
    server (ping_request self) = Return response /\
    Requests.status_code response = 200%Z /\
    Requests.decoded response = Requests.Json (JDict d) /\
    dict_lookup d "status" = Some (JStr "alive").
Proof.
  unfold outcome, ping, ping_request. cbn.
  destruct (server _) as [response | e]; cbn.
  - destruct (Z.eqb_spec (Requests.status_code response) 200) as [E | N]; cbn.
    + unfold response_json.
      destruct (Requests.decoded response) as [v | complaint] eqn:Hdec; cbn.
      * destruct v; cbn;
          try (split; [discriminate |
                       intros (r & d' & H1 & _ & H3 & _); inversion H1; subst;
                       rewrite Hdec in H3; discriminate]).
        unfold dict_get.
        split.
        -- intros H. exists response, d. repeat split; try assumption.
           destruct (dict_lookup d "status") as [s |]; cbn in H; [| discriminate].
           destruct s; cbn in H; try discriminate.
           inversion H as [Hs]. apply String.eqb_eq in Hs. subst. reflexivity.
        -- intros (r & d' & H1 & _ & H3 & H4). inversion H1; subst.
           rewrite Hdec in H3. inversion H3; subst. rewrite H4. reflexivity.
      * split; [discriminate |].
        intros (r & d' & H1 & _ & H3 & _). inversion H1; subst.
        rewrite Hdec in H3. discriminate.
    + split; [discriminate |].
      intros (r & d' & H1 & H2 & _). inversion H1; subst. contradiction.
  - split.
    + destruct e as [y | k msg | msg]; cbn; try discriminate.
      destruct (Requests.isinstance_ConnectionError k); cbn; [discriminate |].
      destruct (Requests.isinstance_Timeout k); cbn; discriminate.
    + intros (r & d' & H1 & _). discriminate.
Qed.

(** C2. [ping] does raise: when the server answers 200 with a body that is
    not JSON, [response.json()] raises [requests.JSONDecodeError], which is
    neither a [ConnectionError] nor a [Timeout], so no clause of [ping]
    catches it and no boolean is returned. *)
Theorem C2_ping_raises_on_undecodable_200 :
  Requests.status_code html_page = 200%Z /\
  run (answers html_page) (ping local_client)
  = ([ping_request local_client],
     Raise (RequestsError Requests.JSONDecodeError
              "Expecting value: line 1 column 1 (char 0)")) /\
  forall b : bool, outcome (answers html_page) (ping local_client) <> Return b.
Proof.
  split; [reflexivity |]. split; [reflexivity |]. intros b. discriminate.
Qed.

(** ** Success and failure of a call *)

(** C3, as the spec states it, fails on a 2xx status other than 200: a 201
    whose body decodes makes the call raise the base [YaraError] instead of
    returning the body. *)
Lemma C3_counterexample :
  (200 <= Requests.status_code created_201 <= 299)%Z /\
  Requests.decoded created_201 = Requests.Json (JDict []) /\
  outcome (answers created_201) (invoke local_client CallListTables)
  = Raise (Yara (YaraError_init YaraError (JStr "Unknown API error") (Some 201%Z))) /\
  outcome (answers created_201) (invoke local_client CallListTables)
  <> Return (JDict []).
Proof.
  repeat split; try discriminate; reflexivity.
Qed.

(** C3 (amended). For every operation other than ping, once the server has
    answered, the call returns the decoded JSON body exactly when the status
    is 200 and the body decodes; in every other case (any other status,
    2xx ones included, or a 200 whose body does not decode) it raises a
    [YaraError]. There is no third outcome. *)
Theorem C3_success_exactly_on_decodable_200 :
  forall (self : YaraClient) (server : Requests.Request -> result Requests.Response)
         (c : Call) (req : Requests.Request) (response : Requests.Response),
    requests_sent server (invoke self c) = [req] ->
    server req = Return response ->
    (forall v,
        outcome server (invoke self c) = Return v <->
        Requests.status_code response = 200%Z /\
        Requests.decoded response = Requests.Json v) /\
    ((exists e, outcome server (invoke self c) = Raise (Yara e)) <->
     Requests.status_code response <> 200%Z \/
     exists complaint, Requests.decoded response = Requests.NotJson complaint) /\
    ((exists v, outcome server (invoke self c) = Return v) \/
     (exists e, outcome server (invoke self c) = Raise (Yara e))).
Proof.
  intros self server c req response Hsent Hanswer.
  rewrite (outcome_of_response self server c req response Hsent Hanswer).
  split; [| split].
  - intros v. unfold _handle_response, response_json.
    destruct (Z.eqb_spec (Requests.status_code response) 200) as [E | N].
    + destruct (Requests.decoded response) as [w | complaint].
      * split; [intros H; inversion H; auto | intros [_ H]; inversion H; reflexivity].
      * split; [discriminate | intros [_ H]; discriminate].
    + split; [| intros [H _]; contradiction].
      split_ifs; discriminate.
  - unfold _handle_response, response_json.
    destruct (Z.eqb_spec (Requests.status_code response) 200) as [E | N].
    + destruct (Requests.decoded response) as [w | complaint].
      * split; [intros [e H]; discriminate |].
        intros [H | [complaint H]]; [contradiction | discriminate].
      * split; [intros _; right; eexists; reflexivity | intros _; eexists; reflexivity].
    + split; [intros _; left; assumption |].
      intros _. split_ifs; eexists; reflexivity.
  - apply handle_response_cases.
Qed.

Lemma C3_witness :
  (forall v,
      outcome (answers created_201) (invoke local_client CallListTables) = Return v <->
      Requests.status_code created_201 = 200%Z /\
      Requests.decoded created_201 = Requests.Json v) /\
  ((exists e, outcome (answers created_201) (invoke local_client CallListTables)
              = Raise (Yara e)) <->
   Requests.status_code created_201 <> 200%Z \/
   exists complaint, Requests.decoded created_201 = Requests.NotJson complaint) /\
  ((exists v, outcome (answers created_201) (invoke local_client CallListTables) = Return v) \/
   (exists e, outcome (answers created_201) (invoke local_client CallListTables)
              = Raise (Yara e))).
Proof.
  apply (C3_success_exactly_on_decodable_200 local_client (answers created_201)
           CallListTables (plain_get "http://127.0.0.1:8000/table/list") created_201).
  - reflexivity.
  - reflexivity.
Defined.

(** C4. For every operation other than ping, a 200 whose body does not
    decode as JSON makes the call raise the base [YaraError] with
    [status_code] 200 and the message [Invalid JSON response from server];
    nothing is returned. *)
Theorem C4_undecodable_200_is_protocol_error :
  forall (self : YaraClient) (server : Requests.Request -> result Requests.Response)
         (c : Call) (req : Requests.Request) (response : Requests.Response)
         (complaint : string),
    requests_sent server (invoke self c) = [req] ->
    server req = Return response ->
    Requests.status_code response = 200%Z ->
    Requests.decoded response = Requests.NotJson complaint ->
    exists e,
      outcome server (invoke self c) = Raise (Yara e) /\
      cls e = YaraError /\
      status_code e = Some 200%Z /\
      message e = JStr "Invalid JSON response from server" /\
      forall v, outcome server (invoke self c) <> Return v.
Proof.
  intros self server c req response complaint Hsent Hanswer Hstatus Hdecoded.
  rewrite (outcome_of_response self server c req response Hsent Hanswer).
  unfold _handle_response, response_json.
  rewrite Hstatus, Hdecoded. cbn.
  eexists. split; [reflexivity |]. cbn.
  repeat split. intros v. discriminate.
Qed.

Lemma C4_witness :
  exists e,
    outcome (answers html_page) (invoke local_client (CallGetTable "users"))
    = Raise (Yara e) /\
    cls e = YaraError /\
    status_code e = Some 200%Z /\
    message e = JStr "Invalid JSON response from server" /\
    forall v,
      outcome (answers html_page) (invoke local_client (CallGetTable "users")) <> Return v.
Proof.
  apply (C4_undecodable_200_is_protocol_error local_client (answers html_page)
           (CallGetTable "users") (plain_get "http://127.0.0.1:8000/table/users") html_page
           "Expecting value: line 1 column 1 (char 0)").
  - reflexivity.
  - reflexivity.
  - reflexivity.
  - reflexivity.
Defined.

(** C5. For every operation other than ping, when the session raises a
    [requests.ConnectionError] (or an instance of a subclass), the call
    raises a [YaraConnectionError] whose message names the host and the
    cause and whose [status_code] is [None]; the exception of [requests]
    itself does not reach the caller. *)
Theorem C5_connection_failure_is_wrapped :
  forall (self : YaraClient) (server : Requests.Request -> result Requests.Response)
         (c : Call) (req : Requests.Request)
         (k : Requests.exception_class) (cause : string),
    requests_sent server (invoke self c) = [req] ->
    server req = Raise (RequestsError k cause) ->
    Requests.isinstance_ConnectionError k = true ->
    exists e,
      outcome server (invoke self c) = Raise (Yara e) /\
      cls e = YaraConnectionError /\
      message e = JStr ("Failed to connect to " ++ host self
                          ++ ". Is the server running? Error: " ++ cause) /\
      status_code e = None /\
      forall k' msg, outcome server (invoke self c) <> Raise (RequestsError k' msg).
Proof.
  intros self server c req k cause Hsent Hanswer Hk.
  rewrite (outcome_of_exception self server c req _ Hsent Hanswer).
  rewrite Hk.
  eexists. split; [reflexivity |]. cbn.
  repeat split. intros k' msg. discriminate.
Qed.

Lemma C5_witness :
  exists e,
    outcome (refuses "Connection refused") (invoke local_client (CallArchive (IdStr "abc")))
    = Raise (Yara e) /\
    cls e = YaraConnectionError /\
    message e = JStr ("Failed to connect to " ++ host local_client
                        ++ ". Is the server running? Error: " ++ "Connection refused") /\
    status_code e = None /\
    forall k' msg,
      outcome (refuses "Connection refused") (invoke local_client (CallArchive (IdStr "abc")))
      <> Raise (RequestsError k' msg).
Proof.
  apply (C5_connection_failure_is_wrapped local_client (refuses "Connection refused")
           (CallArchive (IdStr "abc"))
           {| Requests.method := "PUT";
              Requests.url := "http://127.0.0.1:8000/document/archive/abc";
              Requests.json := None; Requests.params := None; Requests.timeout := None |}
           Requests.ConnectionError "Connection refused").
  - reflexivity.
  - reflexivity.
  - reflexivity.
Defined.

(** ** The message of an error *)

(** C6, as the spec states it, fails at status 422: the body is a mapping
    whose [detail] is [field required], and the message of the error is not
    that field but [Validation Error: field required]. *)
Lemma C6_counterexample :
  Requests.status_code field_required <> 200%Z /\
  Requests.decoded field_required
  = Requests.Json (JDict [("detail", JStr "field required")]) /\
  dict_lookup [("detail", JStr "field required")] "detail" = Some (JStr "field required") /\
  exists e,
    outcome (answers field_required) (invoke local_client (CallGet (IdStr "abc")))
    = Raise (Yara e) /\
    message e = JStr "Validation Error: field required" /\
    message e <> JStr "field required".
Proof.
  split; [discriminate |]. split; [reflexivity |]. split; [reflexivity |].
  eexists. split; [reflexivity |]. split; [reflexivity | discriminate].
Qed.

(** How [_handle_response] reads the detail out of the body. *)
Lemma error_detail_cases (response : Requests.Response) :
  let detail :=
    match response_json response with
    | Return (JDict response_json) =>
        dict_get response_json "detail" (JStr "Unknown API error")
    | Return response_json => JStr (Py.str response_json)
    | Raise _ =>
        JStr (if truthy_str (Requests.text response) then Requests.text response
              else "Unknown API error")
    end in
  (forall d v, Requests.decoded response = Requests.Json (JDict d) ->
               dict_lookup d "detail" = Some v -> detail = v) /\
  (forall d, Requests.decoded response = Requests.Json (JDict d) ->
             dict_lookup d "detail" = None -> detail = JStr "Unknown API error") /\
  (forall v, Requests.decoded response = Requests.Json v ->
             (forall d, v <> JDict d) -> detail = JStr (Py.str v)) /\
  (forall complaint, Requests.decoded response = Requests.NotJson complaint ->
                     Requests.text response <> "" ->
                     detail = JStr (Requests.text response)) /\
  (forall complaint, Requests.decoded response = Requests.NotJson complaint ->
                     Requests.text response = "" ->
                     detail = JStr "Unknown API error").
Proof.
  cbv zeta. unfold response_json, dict_get.
  destruct (Requests.decoded response) as [v | complaint].
  - repeat split; try discriminate.
    + intros d w H Hl. inversion H; subst. rewrite Hl. reflexivity.
    + intros d H Hl. inversion H; subst. rewrite Hl. reflexivity.
    + intros w H Hnd. inversion H; subst.
      destruct w; try reflexivity. exfalso. eapply Hnd. reflexivity.
  - repeat split; try discriminate.
    + intros _ _ Ht. destruct (Requests.text response); [contradiction | reflexivity].
    + intros _ _ Ht. rewrite Ht. reflexivity.
Qed.

(** C6 (amended). For every answer with a status other than 200 the call
    raises an error built from a detail that the body decides: when the body
    decodes to a mapping, the detail is its [detail] entry, or
    [Unknown API error] when it has none; when it decodes to any other
    value, the detail is [str] of that value; when it does not decode, the
    detail is the text of the response, or [Unknown API error] when the text
    is empty. The message of the error is that detail, except at status 422,
    where it is [Validation Error: ] followed by [str] of the detail. *)
Theorem C6_message_from_body :
  forall (self : YaraClient) (server : Requests.Request -> result Requests.Response)
         (c : Call) (req : Requests.Request) (response : Requests.Response),
    requests_sent server (invoke self c) = [req] ->
    server req = Return response ->
    Requests.status_code response <> 200%Z ->
    exists e detail,
      outcome server (invoke self c) = Raise (Yara e) /\
      (Requests.status_code response <> 422%Z -> message e = detail) /\
      (Requests.status_code response = 422%Z ->
       message e = JStr ("Validation Error: " ++ Py.str detail)) /\
      (forall d v, Requests.decoded response = Requests.Json (JDict d) ->
                   dict_lookup d "detail" = Some v -> detail = v) /\
      (forall d, Requests.decoded response = Requests.Json (JDict d) ->
                 dict_lookup d "detail" = None -> detail = JStr "Unknown API error") /\
      (forall v, Requests.decoded response = Requests.Json v ->
                 (forall d, v <> JDict d) -> detail = JStr (Py.str v)) /\
      (forall complaint, Requests.decoded response = Requests.NotJson complaint ->
                         Requests.text response <> "" ->
                         detail = JStr (Requests.text response)) /\
      (forall complaint, Requests.decoded response = Requests.NotJson complaint ->
                         Requests.text response = "" ->
                         detail = JStr "Unknown API error").
Proof.
  intros self server c req response Hsent Hanswer Hstatus.
  rewrite (outcome_of_response self server c req response Hsent Hanswer).
  pose proof (error_detail_cases response) as Hdetail. cbv zeta in Hdetail.
  unfold _handle_response.
  destruct (Z.eqb_spec (Requests.status_code response) 200) as [E | _];
    [contradiction |].
  match goal with
  | |- context [YaraError_init YaraNotFoundError ?d _] =>
      set (detail := d) in *; clearbody detail
  end.
  by_status response;
    eexists; exists detail; (split; [reflexivity |]); cbn [message YaraError_init];
    (split; [intros; try reflexivity; try contradiction; try lia |]);
    (split; [intros; try reflexivity; try contradiction; try lia |]);
    exact Hdetail.
Qed.

Lemma C6_witness :
  exists e detail,
    outcome (answers field_required) (invoke local_client (CallGet (IdStr "abc")))
    = Raise (Yara e) /\
    (Requests.status_code field_required <> 422%Z -> message e = detail) /\
    (Requests.status_code field_required = 422%Z ->
     message e = JStr ("Validation Error: " ++ Py.str detail)) /\
    (forall d v, Requests.decoded field_required = Requests.Json (JDict d) ->
                 dict_lookup d "detail" = Some v -> detail = v) /\
    (forall d, Requests.decoded field_required = Requests.Json (JDict d) ->
               dict_lookup d "detail" = None -> detail = JStr "Unknown API error") /\
    (forall v, Requests.decoded field_required = Requests.Json v ->
               (forall d, v <> JDict d) -> detail = JStr (Py.str v)) /\
    (forall complaint, Requests.decoded field_required = Requests.NotJson complaint ->
                       Requests.text field_required <> "" ->
                       detail = JStr (Requests.text field_required)) /\
    (forall complaint, Requests.decoded field_required = Requests.NotJson complaint ->
                       Requests.text field_required = "" ->
                       detail = JStr "Unknown API error").
Proof.
  apply (C6_message_from_body local_client (answers field_required)
           (CallGet (IdStr "abc"))
           (plain_get "http://127.0.0.1:8000/document/get/abc") field_required).
  - reflexivity.
  - reflexivity.
  - discriminate.
Defined.

(** ** What is sent *)

(** C7, as the spec states it, fails when the caller supplies an empty
    schema or an empty list of unique fields: the arguments are given, yet
    neither key is in the payload. *)
Lemma C7_counterexample :
  exists req,
    requests_sent (answers created_201)
      (create_table local_client "events" (Some "strict") (Some []) (Some []) None)
    = [req] /\
    payload_has req "schema_definition" = false /\
    payload_has req "unique_fields" = false.
Proof.
  eexists. split; [reflexivity |]. split; reflexivity.
Qed.

(** C7 (amended). Every call of [create_table] sends one POST to
    [/table/create] whose JSON payload holds [name], [mode] and [read_only],
    holds [schema_definition] exactly when a non-empty schema is supplied,
    and holds [unique_fields] exactly when a non-empty list is supplied; a
    key whose argument is left out is never in the payload. This is so for
    every mode: with [strict] and no schema the request is still sent, with
    the three mandatory keys only. *)
Theorem C7_optional_keys_in_payload :
  forall (self : YaraClient) (server : Requests.Request -> result Requests.Response)
         (name : string) (mode : option string) (schema : option dict)
         (unique_fields : option (list string)) (read_only : option bool),
  exists req,
    requests_sent server (create_table self name mode schema unique_fields read_only)
    = [req] /\
    Requests.method req = "POST" /\
    Requests.url req = host self ++ "/table/create" /\
    payload_lookup req "name" = Some (JStr name) /\
    payload_lookup req "mode" = Some (JStr (default "free" mode)) /\
    payload_lookup req "read_only" = Some (JBool (default false read_only)) /\
    (payload_has req "schema_definition" = true <->
     exists s, schema = Some s /\ s <> []) /\
    (forall s, schema = Some s -> s <> [] ->
               payload_lookup req "schema_definition" = Some (JDict s)) /\
    (payload_has req "unique_fields" = true <->
     exists u, unique_fields = Some u /\ u <> []) /\
    (forall u, unique_fields = Some u -> u <> [] ->
               payload_lookup req "unique_fields" = Some (JList (map JStr u))) /\
    (schema = None -> unique_fields = None ->
     Requests.json req =
     Some (JDict [("name", JStr name); ("mode", JStr (default "free" mode));
                  ("read_only", JBool (default false read_only))])).
Proof.
  intros self server name mode schema unique_fields read_only.
  unfold create_table, session_post, session_request.
  eexists. split; [apply sent_round_trip |].
  destruct schema as [[| x s] |]; destruct unique_fields as [[| y u] |];
    cbn; repeat split;
    try discriminate; try reflexivity;
    try (intros (z & Hz & Hne); inversion Hz; subst; congruence);
    try (intros _; eexists; split; [reflexivity | discriminate]);
    try (intros z Hz Hne; inversion Hz; subst; congruence);
    try (intros z Hz Hne; inversion Hz; subst; reflexivity).
Qed.

(** C9. A call of [combine] that names no merge strategy sends a payload
    whose [merge_strategy] is [overwrite]. *)
Theorem C9_combine_default_strategy :
  forall (self : YaraClient) (server : Requests.Request -> result Requests.Response)
         (document_ids : list DocId) (name : string),
  exists req,
    requests_sent server (combine self document_ids name None) = [req] /\
    Requests.method req = "POST" /\
    Requests.url req = host self ++ "/document/combine" /\
    payload_lookup req "name" = Some (JStr name) /\
    payload_lookup req "merge_strategy" = Some (JStr "overwrite").
Proof.
  intros self server document_ids name.
  unfold combine, session_post, session_request.
  eexists. split; [apply sent_round_trip |].
  cbn. repeat split.
Qed.

(** *** The text of a UUID *)

Lemma is_hex_hexdigit (n : N) : is_hex (hexdigit n) = true.
Proof.
  destruct n as [| p]; [reflexivity |].
  do 4 (try (destruct p as [p | p |])); reflexivity.
Qed.

Lemma all_hex_app (s t : string) :
  all_hex s = true -> all_hex t = true -> all_hex (s ++ t) = true.
Proof.
  induction s as [| c s IH]; cbn [all_hex append]; [auto |].
  intros Hs Ht. apply andb_prop in Hs. destruct Hs as [Hc Hs].
  rewrite Hc. cbn. auto.
Qed.

Lemma all_hex_zeros (k : nat) : all_hex (Uuid.zeros k) = true.
Proof.
  induction k as [| k IH]; cbn [Uuid.zeros all_hex]; [reflexivity |].
  rewrite IH. reflexivity.
Qed.

Lemma all_hex_hex_digits (fuel : nat) :
  forall n acc, all_hex acc = true -> all_hex (Uuid.hex_digits fuel n acc) = true.
Proof.
  induction fuel as [| fuel IH]; intros n acc Hacc; cbn [Uuid.hex_digits]; [assumption |].
  assert (Hacc' : all_hex (String (hexdigit (n mod 16)) acc) = true).
  { cbn [all_hex]. rewrite is_hex_hexdigit. assumption. }
  destruct (N.eqb (n / 16) 0); [assumption | apply IH; assumption].
Qed.

Lemma length_zeros (k : nat) : String.length (Uuid.zeros k) = k.
Proof.
  induction k as [| k IH]; cbn; congruence.
Qed.

Lemma length_append (s t : string) :
  String.length (s ++ t) = String.length s + String.length t.
Proof.
  induction s as [| c s IH]; cbn; congruence.
Qed.

(** A number below [16 ^ k] has at most [k] hexadecimal digits. *)
Lemma length_hex_digits (fuel : nat) :
  forall (k : nat) (n : N) (acc : string),
    (n < 16 ^ N.of_nat k)%N -> 1 <= k ->
    String.length (Uuid.hex_digits fuel n acc) <= String.length acc + k.
Proof.
  induction fuel as [| fuel IH]; intros k n acc Hn Hk; cbn [Uuid.hex_digits]; [lia |].
  destruct (N.eqb_spec (n / 16) 0) as [E | N0]; [cbn; lia |].
  destruct k as [| k]; [lia |].
  assert (Hdiv : (n / 16 < 16 ^ N.of_nat k)%N).
  { apply N.Div0.div_lt_upper_bound.
    replace (N.of_nat (S k)) with (N.succ (N.of_nat k)) in Hn by lia.
    rewrite N.pow_succ_r' in Hn. exact Hn. }
  destruct k as [| k].
  - change (16 ^ N.of_nat 0)%N with 1%N in Hdiv.
    apply N.lt_1_r in Hdiv. contradiction.
  - specialize (IH (S k) (n / 16)%N (String (hexdigit (n mod 16)) acc) Hdiv).
    cbn [String.length] in IH. lia.
Qed.

Lemma format_0x_32 (u : Uuid.UUID) :
  String.length (Uuid.format_0x 32 (Uuid.int u)) = 32 /\
  all_hex (Uuid.format_0x 32 (Uuid.int u)) = true.
Proof.
  unfold Uuid.format_0x, Uuid.format_x.
  set (fuel := S (N.to_nat (N.log2 (Uuid.int u)))).
  pose proof (Uuid.int_range u) as Hrange. apply N.ltb_lt in Hrange.
  assert (Hlen : String.length (Uuid.hex_digits fuel (Uuid.int u) "") <= 32).
  { change 32 with (String.length "" + 32).
    apply length_hex_digits; [| lia].
    change (16 ^ N.of_nat 32)%N with (2 ^ 128)%N. exact Hrange. }
  split.
  - rewrite length_append, length_zeros. lia.
  - apply all_hex_app; [apply all_hex_zeros | apply all_hex_hex_digits; reflexivity].
Qed.

Lemma str_canonical (u : Uuid.UUID) : canonical_uuid_text (Uuid.str u) = true.
Proof.
  unfold Uuid.str.
  destruct (format_0x_32 u) as [Hlen Hhex].
  generalize dependent (Uuid.format_0x 32 (Uuid.int u)). intros hex Hlen Hhex.
  do 32 (destruct hex as [| ? hex]; [discriminate Hlen |]).
  destruct hex; [| discriminate Hlen].
  clear Hlen. cbn [all_hex] in Hhex.
  repeat match type of Hhex with
         | (_ && _) = true => apply andb_prop in Hhex; destruct Hhex as [? Hhex]
         end.
  unfold canonical_uuid_text, Uuid.slice, Uuid.slice_from.
  cbn -[is_hex].
  repeat match goal with
         | H : is_hex ?c = true |- _ => rewrite H; clear H
         end.
  reflexivity.
Qed.

(** Reading the text back: the digits written are the digits of the
    integer. *)

Lemma hex_digit_value_hexdigit (d : N) :
  (d < 16)%N -> hex_digit_value (hexdigit d) = d.
Proof.
  intros Hd. destruct d as [| p]; [reflexivity |].
  do 4 (try (destruct p as [p | p |])); try reflexivity; lia.
Qed.

Lemma hex_value_zeros (k : nat) (s : string) :
  hex_value (Uuid.zeros k ++ s) = hex_value s.
Proof.
  induction k as [| k IH]; cbn [Uuid.zeros append hex_value]; [reflexivity |].
  rewrite IH. change (hex_digit_value "0") with 0%N. lia.
Qed.

(** With fuel enough for its digits, a number is read back from the digits
    [hex_digits] writes in front of [acc]. *)
Lemma hex_value_hex_digits (fuel : nat) :
  forall (n : N) (acc : string),
    (n < 16 ^ N.of_nat fuel)%N -> 1 <= fuel ->
    hex_value (Uuid.hex_digits fuel n acc)
    = (n * 16 ^ N.of_nat (String.length acc) + hex_value acc)%N.
Proof.
  induction fuel as [| fuel IH]; intros n acc Hn Hfuel; [lia |].
  cbn [Uuid.hex_digits].
  assert (Hmod : (n mod 16 < 16)%N) by (apply N.mod_lt; discriminate).
  assert (Hsplit : (n = 16 * (n / 16) + n mod 16)%N) by (apply N.div_mod; discriminate).
  assert (Hacc' : hex_value (String (hexdigit (n mod 16)) acc)
                  = (n mod 16 * 16 ^ N.of_nat (String.length acc) + hex_value acc)%N).
  { cbn [hex_value]. rewrite (hex_digit_value_hexdigit _ Hmod). reflexivity. }
  destruct (N.eqb_spec (n / 16) 0) as [E | N0].
  - rewrite Hacc'. rewrite E, N.mul_0_r, N.add_0_l in Hsplit.
    rewrite <- Hsplit. reflexivity.
  - assert (Hdiv : (n / 16 < 16 ^ N.of_nat fuel)%N).
    { apply N.Div0.div_lt_upper_bound.
      replace (N.of_nat (S fuel)) with (N.succ (N.of_nat fuel)) in Hn by lia.
      rewrite N.pow_succ_r' in Hn. exact Hn. }
    assert (Hfuel' : 1 <= fuel).
    { destruct fuel as [| fuel']; [| lia].
      change (16 ^ N.of_nat 0)%N with 1%N in Hdiv.
      apply N.lt_1_r in Hdiv. contradiction. }
    rewrite (IH (n / 16)%N _ Hdiv Hfuel'), Hacc'.
    cbn [String.length].
    replace (N.of_nat (S (String.length acc)))
      with (N.succ (N.of_nat (String.length acc))) by lia.
    rewrite N.pow_succ_r'.
    set (P := (16 ^ N.of_nat (String.length acc))%N).
    rewrite Hsplit at 3.
    rewrite N.add_assoc. f_equal.
    rewrite N.mul_add_distr_r. f_equal.
    rewrite !N.mul_assoc. f_equal. apply N.mul_comm.
Qed.

Lemma fuel_suffices (n : N) : (n < 16 ^ N.of_nat (S (N.to_nat (N.log2 n))))%N.
Proof.
  replace (N.of_nat (S (N.to_nat (N.log2 n)))) with (N.succ (N.log2 n)) by lia.
  destruct n as [| p]; [reflexivity |].
  destruct (N.log2_spec (N.pos p)) as [_ Hlt]; [reflexivity |].
  eapply N.lt_le_trans; [exact Hlt |].
  apply N.pow_le_mono_l. lia.
Qed.

Lemma hex_value_format_0x (width : nat) (n : N) :
  hex_value (Uuid.format_0x width n) = n.
Proof.
  unfold Uuid.format_0x, Uuid.format_x.
  rewrite hex_value_zeros, hex_value_hex_digits; [| apply fuel_suffices | lia].
  cbn. lia.
Qed.

Lemma is_hex_not_hyphen (c : ascii) : is_hex c = true -> Ascii.eqb c "-" = false.
Proof.
  destruct c as [[] [] [] [] [] [] [] []]; cbn; intros H;
    first [reflexivity | discriminate H].
Qed.

Lemma remove_hyphens_hex (c : ascii) (s : string) :
  is_hex c = true -> remove_hyphens (String c s) = String c (remove_hyphens s).
Proof.
  intros H. cbn [remove_hyphens]. rewrite (is_hex_not_hyphen c H). reflexivity.
Qed.

Lemma remove_hyphens_hyphen (s : string) :
  remove_hyphens (String "-" s) = remove_hyphens s.
Proof. reflexivity. Qed.

Lemma remove_hyphens_str (u : Uuid.UUID) :
  remove_hyphens (Uuid.str u) = Uuid.format_0x 32 (Uuid.int u).
Proof.
  unfold Uuid.str.
  destruct (format_0x_32 u) as [Hlen Hhex].
  generalize dependent (Uuid.format_0x 32 (Uuid.int u)). intros hex Hlen Hhex.
  do 32 (destruct hex as [| ? hex]; [discriminate Hlen |]).
  destruct hex; [| discriminate Hlen].
  clear Hlen. cbn [all_hex] in Hhex.
  repeat match type of Hhex with
         | (_ && _) = true => apply andb_prop in Hhex; destruct Hhex as [? Hhex]
         end.
  unfold Uuid.slice, Uuid.slice_from.
  cbn -[remove_hyphens].
  repeat first [rewrite remove_hyphens_hex by assumption | rewrite remove_hyphens_hyphen].
  reflexivity.
Qed.

(** C8. A document identifier given as a [uuid.UUID] is sent as [str] of
    it, which is its own canonical text: the text has the 8-4-4-4-12 form
    in lowercase hexadecimal digits, and its 32 digits are those of the
    integer of this UUID (reading them back in base 16 gives that integer,
    so no other UUID has the same text). That text is what is put in the
    path of the URL for [get], [update] and [archive], and in the
    [document_ids] of the payload of [combine]. *)
Theorem C8_uuid_sent_as_canonical_text :
  forall (self : YaraClient) (server : Requests.Request -> result Requests.Response)
         (u : Uuid.UUID),
    canonical_uuid_text (Uuid.str u) = true /\
    hex_value (remove_hyphens (Uuid.str u)) = Uuid.int u /\
    (forall u' : Uuid.UUID, Uuid.str u = Uuid.str u' -> Uuid.int u = Uuid.int u') /\
    requests_sent server (get self (IdUUID u))
    = [plain_get (host self ++ "/document/get/" ++ Uuid.str u)] /\
    (forall version body,
        requests_sent server (update self (IdUUID u) version body)
        = [{| Requests.method := "PUT";
              Requests.url := host self ++ "/document/update/" ++ Uuid.str u;
              Requests.json := Some (JDict [("version", JInt version); ("body", JDict body)]);
              Requests.params := None; Requests.timeout := None |}]) /\
    requests_sent server (archive self (IdUUID u))
    = [{| Requests.method := "PUT";
          Requests.url := host self ++ "/document/archive/" ++ Uuid.str u;
          Requests.json := None; Requests.params := None; Requests.timeout := None |}] /\
    (forall before after name merge_strategy,
        exists req,
          requests_sent server
            (combine self (before ++ IdUUID u :: after)%list name merge_strategy)
          = [req] /\
          payload_lookup req "document_ids"
          = Some (JList (map (fun doc_id => JStr (str_doc_id doc_id)) before
                           ++ JStr (Uuid.str u)
                           :: map (fun doc_id => JStr (str_doc_id doc_id)) after)%list)).
Proof.
  intros self server u.
  assert (Hback : forall v, hex_value (remove_hyphens (Uuid.str v)) = Uuid.int v).
  { intros v. rewrite remove_hyphens_str. apply hex_value_format_0x. }
  split; [apply str_canonical |].
  split; [apply Hback |].
  split; [intros u' H; rewrite <- (Hback u), <- (Hback u'), H; reflexivity |].
  split; [apply sent_round_trip |].
  split; [intros version body; apply sent_round_trip |].
  split; [apply sent_round_trip |].
  intros before after name merge_strategy.
  unfold combine, session_post, session_request.
  eexists. split; [apply sent_round_trip |].
  cbn. rewrite map_app. reflexivity.
Qed.

(** *** The segments of a path *)

Lemma split_slash_cons (s : string) : exists seg segs, split_slash s = seg :: segs.
Proof.
  destruct s as [| c s]; cbn; [eauto |].
  destruct (Ascii.eqb c "/"); [eauto |].
  destruct (split_slash s); eauto.
Qed.

Lemma split_slash_app (s t : string) :
  split_slash (s ++ String "/" t) = (split_slash s ++ split_slash t)%list.
Proof.
  induction s as [| c s IH]; cbn; [reflexivity |].
  destruct (Ascii.eqb c "/"); rewrite IH; [reflexivity |].
  destruct (split_slash_cons s) as (seg & segs & E). rewrite E. reflexivity.
Qed.

Lemma split_slash_single (s : string) :
  contains_char "/" s = false -> split_slash s = [s].
Proof.
  induction s as [| c s IH]; cbn; [reflexivity |].
  destruct (Ascii.eqb c "/"); cbn; [discriminate |].
  intros H. rewrite (IH H). reflexivity.
Qed.

Lemma split_slash_several (s : string) :
  contains_char "/" s = true -> 2 <= List.length (split_slash s).
Proof.
  induction s as [| c s IH]; cbn; [discriminate |].
  destruct (Ascii.eqb c "/"); cbn.
  - intros _. destruct (split_slash_cons s) as (seg & segs & E). rewrite E. cbn. lia.
  - intros H. specialize (IH H).
    destruct (split_slash s) as [| seg segs]; cbn in *; lia.
Qed.

(** C10. [get_table], [delete_table] and [get_table_documents] put the name
    they are given into the URL as it is: the URL is the host, [/table/],
    the name, and [/documents] for the last of the three. The path then has
    the segments of the name after [table]: one segment for a name with no
    [/], at least two for a name that has one. So [get_table] on
    [x/documents] is the very call [get_table_documents] makes on [x]. *)
Theorem C10_table_name_interpolated_verbatim :
  forall (self : YaraClient) (server : Requests.Request -> result Requests.Response)
         (name : string),
    requests_sent server (get_table self name)
    = [plain_get (host self ++ "/table/" ++ name)] /\
    requests_sent server (delete_table self name)
    = [{| Requests.method := "DELETE"; Requests.url := host self ++ "/table/" ++ name;
          Requests.json := None; Requests.params := None; Requests.timeout := None |}] /\
    requests_sent server (get_table_documents self name)
    = [plain_get (host self ++ "/table/" ++ name ++ "/documents")] /\
    split_slash ("/table/" ++ name) = ("" :: "table" :: split_slash name)%list /\
    split_slash ("/table/" ++ name ++ "/documents")
    = ("" :: "table" :: split_slash name ++ ["documents"])%list /\
    (contains_char "/" name = false ->
     split_slash ("/table/" ++ name) = [""; "table"; name]) /\
    (contains_char "/" name = true ->
     3 < List.length (split_slash ("/table/" ++ name))) /\
    get_table self (name ++ "/documents") = get_table_documents self name /\
    requests_sent server (get_table self (name ++ "/documents"))
    = requests_sent server (get_table_documents self name).
Proof.
  intros self server name.
  assert (Hpath : split_slash ("/table/" ++ name)
                  = ("" :: "table" :: split_slash name)%list).
  { change ("/table/" ++ name) with ("" ++ String "/" ("table" ++ String "/" name)).
    rewrite !split_slash_app. reflexivity. }
  split; [apply sent_round_trip |].
  split; [apply sent_round_trip |].
  split; [apply sent_round_trip |].
  split; [exact Hpath |].
  split.
  { change ("/table/" ++ name ++ "/documents")
      with ("" ++ String "/" ("table" ++ String "/" (name ++ String "/" "documents"))).
    rewrite !split_slash_app. reflexivity. }
  split; [intros H; rewrite Hpath, (split_slash_single name H); reflexivity |].
  split; [intros H; rewrite Hpath; pose proof (split_slash_several name H); cbn; lia |].
  split; reflexivity.
Qed.

(** ** Beyond the claims: the client object *)

Lemma rstrip_slash_clean (s : string) : ends_with_slash (rstrip_slash s) = false.
Proof.
  induction s as [| c s IH]; cbn [rstrip_slash]; [reflexivity |].
  destruct (rstrip_slash s) as [| c' r] eqn:E.
  - destruct (Ascii.eqb c "/") eqn:Hc; cbn; [reflexivity | exact Hc].
  - exact IH.
Qed.

Lemma rstrip_slash_split (s : string) : exists k, s = rstrip_slash s ++ slashes k.
Proof.
  induction s as [| c s [k IH]]; cbn [rstrip_slash]; [exists 0; reflexivity |].
  destruct (rstrip_slash s) as [| c' r] eqn:E.
  - destruct (Ascii.eqb_spec c "/") as [-> | N].
    + exists (S k). cbn in *. congruence.
    + exists k. cbn in *. congruence.
  - exists k. cbn in *. congruence.
Qed.

Lemma rstrip_slash_fixed (s : string) : ends_with_slash s = false -> rstrip_slash s = s.
Proof.
  induction s as [| c s IH]; cbn [rstrip_slash ends_with_slash]; [reflexivity |].
  destruct s as [| c' s'].
  - cbn. intros ->. reflexivity.
  - intros H. rewrite (IH H). reflexivity.
Qed.

(** X1. [YaraClient.__init__] keeps the host without its trailing slashes:
    the host stored never ends with [/], the host given is the host stored
    followed by slashes only, a host that does not end with [/] is stored
    as it is, and with no argument the host is [http://127.0.0.1:8000]. *)
Theorem X1_init_strips_trailing_slashes :
  forall given : string,
    ends_with_slash (host (YaraClient_init (Some given))) = false /\
    (exists k, given = host (YaraClient_init (Some given)) ++ slashes k) /\
    (ends_with_slash given = false -> host (YaraClient_init (Some given)) = given) /\
    host (YaraClient_init None) = "http://127.0.0.1:8000".
Proof.
  intros given. unfold YaraClient_init. cbn [default host].
  split; [apply rstrip_slash_clean |].
  split; [apply rstrip_slash_split |].
  split; [apply rstrip_slash_fixed | reflexivity].
Qed.

(** ** Beyond the claims: what goes on the wire *)

(** [ping] issues its request and no other. *)
Lemma ping_sent (self : YaraClient) (server : Requests.Request -> result Requests.Response) :
  requests_sent server (ping self) = [ping_request self].
Proof.
  unfold requests_sent, ping, ping_request. cbn.
  destruct (server _) as [response | e]; cbn.
  - destruct (Requests.status_code response =? 200)%Z; cbn; [| reflexivity].
    unfold response_json.
    destruct (Requests.decoded response) as [v | complaint]; cbn; [| reflexivity].
    destruct v; reflexivity.
  - destruct e as [y | k msg | msg]; cbn; try reflexivity.
    destruct (Requests.isinstance_ConnectionError k); cbn; [reflexivity |].
    destruct (Requests.isinstance_Timeout k); reflexivity.
Qed.

(** X2. A call performs one HTTP request and no more, whatever the server
    does: nothing is sent again after an error or a failure of the
    transport, and the request is the same against every server. This holds
    for the twelve operations and for [ping]. *)
Theorem X2_one_request_per_call :
  forall self : YaraClient,
    (forall c : Call,
        exists req,
          forall server : Requests.Request -> result Requests.Response,
            requests_sent server (invoke self c) = [req]) /\
    (forall server : Requests.Request -> result Requests.Response,
        requests_sent server (ping self) = [ping_request self]).
Proof.
  intros self. split.
  - intros c. destruct (invoke_unfold self c) as [req E]. exists req.
    intros server. rewrite E. apply sent_round_trip.
  - apply ping_sent.
Qed.

(** X3. The URL of every request is the host of the client followed by a
    path that starts with [/]; the method is GET, POST, PUT or DELETE; the
    twelve operations set no timeout, and [ping] alone sets one, of 3
    seconds. *)
Theorem X3_url_method_timeout :
  forall (self : YaraClient) (server : Requests.Request -> result Requests.Response),
    (forall c : Call,
        exists req path,
          requests_sent server (invoke self c) = [req] /\
          Requests.url req = host self ++ String "/" path /\
          In (Requests.method req) ["GET"; "POST"; "PUT"; "DELETE"] /\
          Requests.timeout req = None) /\
    (exists req,
        requests_sent server (ping self) = [req] /\
        Requests.url req = host self ++ "/ping" /\
        Requests.method req = "GET" /\
        Requests.timeout req = Some 3%Z).
Proof.
  intros self server. split.
  - intros c.
    destruct c; cbn [invoke];
      unfold create, get, find, update, archive, combine, create_table, list_tables,
        get_table, delete_table, get_table_documents, self_destruct,
        session_get, session_post, session_put, session_delete, session_request;
      eexists; eexists; (split; [apply sent_round_trip |]);
      cbn; (split; [reflexivity |]); (split; [| reflexivity]); tauto.
  - exists (ping_request self). split; [apply ping_sent |]. repeat split.
Qed.

(** X4. What a request carries: a GET never has a JSON body nor query
    parameters, a JSON body is always a mapping, and query parameters are
    sent by [find] only. *)
Theorem X4_bodies_and_parameters :
  forall (self : YaraClient) (server : Requests.Request -> result Requests.Response)
         (c : Call),
  exists req,
    requests_sent server (invoke self c) = [req] /\
    (Requests.method req = "GET" ->
     Requests.json req = None /\ Requests.params req = None) /\
    (Requests.json req = None \/ exists payload, Requests.json req = Some (JDict payload)) /\
    (Requests.params req <> None <->
     exists filter_body include_archived, c = CallFind filter_body include_archived).
Proof.
  intros self server c.
  destruct c; cbn [invoke];
    unfold create, get, find, update, archive, combine, create_table, list_tables,
      get_table, delete_table, get_table_documents, self_destruct,
      session_get, session_post, session_put, session_delete, session_request;
    eexists; (split; [apply sent_round_trip |]); cbn;
    (split; [intros H; try discriminate H; split; reflexivity |]);
    (split; [first [left; reflexivity | right; eexists; reflexivity] |]);
    (split; [intros H; try (exfalso; apply H; reflexivity); eauto
            | intros (f & a & H); try discriminate H; discriminate]).
Qed.

(** ** Beyond the claims: failures of the transport *)

(** X5. The twelve operations catch [requests.ConnectionError] and nothing
    else: an exception of [requests] of any other class, a read timeout for
    one, reaches the caller as it was raised, not as a [YaraError]. *)
Theorem X5_other_transport_errors_propagate :
  forall (self : YaraClient) (server : Requests.Request -> result Requests.Response)
         (c : Call) (req : Requests.Request)
         (k : Requests.exception_class) (msg : string),
    requests_sent server (invoke self c) = [req] ->
    server req = Raise (RequestsError k msg) ->
    Requests.isinstance_ConnectionError k = false ->
    outcome server (invoke self c) = Raise (RequestsError k msg).
Proof.
  intros self server c req k msg Hsent Hanswer Hk.
  rewrite (outcome_of_exception self server c req _ Hsent Hanswer).
  rewrite Hk. reflexivity.
Qed.

Lemma X5_witness :
  outcome (times_out "Read timed out.") (invoke local_client CallListTables)
  = Raise (RequestsError Requests.ReadTimeout "Read timed out.").
Proof.
  apply (X5_other_transport_errors_propagate local_client (times_out "Read timed out.")
           CallListTables (plain_get "http://127.0.0.1:8000/table/list")
           Requests.ReadTimeout "Read timed out.").
  - reflexivity.
  - reflexivity.
  - reflexivity.
Defined.

(** X6. [ping] answers [False] when the session raises a
    [requests.ConnectionError] or a [requests.Timeout], instances of their
    subclasses included: a read timeout, which the other operations let
    through, is swallowed here. *)
Theorem X6_ping_false_on_connection_failure_or_timeout :
  forall (self : YaraClient) (server : Requests.Request -> result Requests.Response)
         (k : Requests.exception_class) (msg : string),
    server (ping_request self) = Raise (RequestsError k msg) ->
    Requests.isinstance_ConnectionError k || Requests.isinstance_Timeout k = true ->
    outcome server (ping self) = Return false.
Proof.
  intros self server k msg Hanswer Hk.
  unfold outcome. rewrite (ping_swallows_transport_failure self server k msg Hanswer Hk).
  reflexivity.
Qed.

Lemma X6_witness :
  outcome (times_out "Read timed out.") (ping local_client) = Return false.
Proof.
  apply (X6_ping_false_on_connection_failure_or_timeout local_client
           (times_out "Read timed out.") Requests.ReadTimeout "Read timed out.").
  - reflexivity.
  - reflexivity.
Defined.

(** X7. [ping] answers [True] exactly when the server answers 200 with a
    body that decodes to a mapping whose [status] is the text [alive]. *)
Theorem X7_ping_true_exactly_when_alive :
  forall (self : YaraClient) (server : Requests.Request -> result Requests.Response),
    outcome server (ping self) = Return true <->
    exists response d,
      server (ping_request self) = Return response /\
      Requests.status_code response = 200%Z /\
      Requests.decoded response = Requests.Json (JDict d) /\
      dict_lookup d "status" = Some (JStr "alive").
Proof.
  intros self server. apply ping_true_iff.
Qed.

(** X8. [ping] raises in three cases and no other: the session raises
    something that is neither a [requests.ConnectionError] nor a
    [requests.Timeout]; the server answers 200 with a body that is not JSON;
    the server answers 200 with JSON that is not a mapping. In every other
    case it returns a boolean. *)
Theorem X8_ping_raises_exactly_when :
  forall (self : YaraClient) (server : Requests.Request -> result Requests.Response),
    ((exists e, outcome server (ping self) = Raise e) <->
     (exists e, server (ping_request self) = Raise e /\
                forall k msg, e = RequestsError k msg ->
                              Requests.isinstance_ConnectionError k = false /\
                              Requests.isinstance_Timeout k = false) \/
     (exists response,
         server (ping_request self) = Return response /\
         Requests.status_code response = 200%Z /\
         ((exists complaint, Requests.decoded response = Requests.NotJson complaint) \/
          (exists v, Requests.decoded response = Requests.Json v /\
                     forall d, v <> JDict d)))) /\
    ((exists b, outcome server (ping self) = Return b) \/
     (exists e, outcome server (ping self) = Raise e)).
Proof.
  intros self server. unfold outcome, ping, ping_request. cbn.
  destruct (server _) as [response | e] eqn:Hanswer; cbn.
  - destruct (Z.eqb_spec (Requests.status_code response) 200) as [E | N]; cbn.
    + unfold response_json.
      destruct (Requests.decoded response) as [v | complaint] eqn:Hdec; cbn.
      * destruct v; cbn;
          try (split; [| right; eexists; reflexivity];
               split; [intros _; right; exists response;
                       split; [reflexivity |]; split; [assumption |];
                       right; eexists; split; [exact Hdec | intros d; discriminate]
                      | intros _; eexists; reflexivity]).
        split; [| left; eexists; reflexivity].
        split; [intros [e H]; discriminate |].
        intros [(e & H & _) | (r & H1 & _ & Hbody)]; [discriminate |].
        injection H1 as <-.
        destruct Hbody as [[complaint H] | (v & H & Hv)]; rewrite Hdec in H.
        -- discriminate.
        -- injection H as <-. destruct (Hv d eq_refl).
      * split; [| right; eexists; reflexivity].
        split; [| intros _; eexists; reflexivity].
        intros _. right. exists response. split; [reflexivity |]. split; [assumption |].
        left. eexists. exact Hdec.
    + split; [| left; eexists; reflexivity].
      split; [intros [e H]; discriminate |].
      intros [(e & H & _) | (r & H1 & H2 & _)]; [discriminate |].
      injection H1 as <-. contradiction.
  - destruct e as [y | k msg | msg]; cbn.
    + split; [| right; eexists; reflexivity].
      split; [| intros _; eexists; reflexivity].
      intros _. left. eexists. split; [reflexivity |]. intros k msg H. discriminate.
    + destruct (Requests.isinstance_ConnectionError k) eqn:Hc; cbn.
      * split; [| left; eexists; reflexivity].
        split; [intros [e H]; discriminate |].
        intros [(e & H & Hk) | (r & H & _)]; [| discriminate].
        inversion H; subst. destruct (Hk k msg eq_refl) as [Hk1 _]. congruence.
      * destruct (Requests.isinstance_Timeout k) eqn:Ht; cbn.
        -- split; [| left; eexists; reflexivity].
           split; [intros [e H]; discriminate |].
           intros [(e & H & Hk) | (r & H & _)]; [| discriminate].
           inversion H; subst. destruct (Hk k msg eq_refl) as [_ Hk2]. congruence.
        -- split; [| right; eexists; reflexivity].
           split; [| intros _; eexists; reflexivity].
           intros _. left. eexists. split; [reflexivity |].
           intros k' msg' H. inversion H; subst. split; assumption.
    + split; [| right; eexists; reflexivity].
      split; [| intros _; eexists; reflexivity].
      intros _. left. eexists. split; [reflexivity |]. intros k msg' H. discriminate.
Qed.

(** ** Beyond the claims: the errors a caller sees *)

(** What every error raised by [_handle_response] looks like. *)
Lemma handle_response_error (response : Requests.Response) (e : YaraErrorObject) :
  _handle_response response = Raise (Yara e) ->
  cls e <> YaraConnectionError /\
  status_code e = Some (Requests.status_code response) /\
  args e = "Status code: " ++ str_status (status_code e) ++ ", Error: "
             ++ Py.str (message e) /\
  ((exists s, message e = JStr s) \/
   (Requests.status_code response <> 200%Z /\
    Requests.status_code response <> 422%Z /\
    exists d v, Requests.decoded response = Requests.Json (JDict d) /\
                dict_lookup d "detail" = Some v /\ message e = v)).
Proof.
  unfold _handle_response, response_json, dict_get.
  destruct (Z.eqb_spec (Requests.status_code response) 200) as [E200 | N200].
  - destruct (Requests.decoded response) as [v | complaint]; [discriminate |].
    intros H. injection H as <-. cbn.
    repeat split; try discriminate; try congruence. left. eexists. reflexivity.
  - destruct (Requests.decoded response) as [v | complaint] eqn:Hdec.
    + destruct v;
        try (by_status response; intros H; injection H as <-; cbn;
             repeat split; try discriminate; try congruence;
             left; eexists; reflexivity).
      destruct (dict_lookup d "detail") as [v |] eqn:Hl.
      * by_status response; intros H; injection H as <-; cbn [cls status_code args message YaraError_init];
          repeat split; try discriminate; try congruence;
          try (left; eexists; reflexivity);
          right; repeat split; try assumption; try lia; exists d, v; auto.
      * by_status response; intros H; injection H as <-; cbn;
          repeat split; try discriminate; try congruence;
          left; eexists; reflexivity.
    + by_status response; intros H; injection H as <-; cbn;
        repeat split; try discriminate; try congruence;
        left; eexists; reflexivity.
Qed.

(** X9. Where an error comes from can be read off the error. Against a
    session that raises exceptions of [requests] only, a [YaraError] raised
    by one of the twelve operations is either a [YaraConnectionError], with
    no status code, raised because the session raised a
    [requests.ConnectionError]; or an error of another class, raised because
    the server answered, whose status code is the status of the answer. In
    both cases the text of the exception is [Status code: ], the status
    code, [, Error: ] and the message. *)
Theorem X9_error_provenance :
  forall (self : YaraClient) (server : Requests.Request -> result Requests.Response)
         (c : Call) (req : Requests.Request) (e : YaraErrorObject),
    raises_only_requests_errors server ->
    requests_sent server (invoke self c) = [req] ->
    outcome server (invoke self c) = Raise (Yara e) ->
    ((cls e = YaraConnectionError /\ status_code e = None /\
      exists k cause, server req = Raise (RequestsError k cause) /\
                      Requests.isinstance_ConnectionError k = true) \/
     (cls e <> YaraConnectionError /\
      exists response, server req = Return response /\
                       status_code e = Some (Requests.status_code response))) /\
    args e = "Status code: " ++ str_status (status_code e) ++ ", Error: "
               ++ Py.str (message e).
Proof.
  intros self server c req e Honly Hsent Hout.
  destruct (server req) as [response | x] eqn:Hanswer.
  - rewrite (outcome_of_response self server c req response Hsent Hanswer) in Hout.
    destruct (handle_response_error response e Hout) as (Hcls & Hstatus & Hargs & _).
    split; [| exact Hargs].
    right. split; [exact Hcls |]. exists response. split; [reflexivity | exact Hstatus].
  - rewrite (outcome_of_exception self server c req x Hsent Hanswer) in Hout.
    destruct (Honly req x Hanswer) as (k & cause & ->).
    destruct (Requests.isinstance_ConnectionError k) eqn:Hk; [| discriminate].
    injection Hout as <-. split; [| reflexivity].
    left. repeat split. exists k, cause. split; [reflexivity | exact Hk].
Qed.

Lemma X9_witness :
  ((cls (YaraConnectionError_init "http://127.0.0.1:8000" "Connection refused")
    = YaraConnectionError /\
    status_code (YaraConnectionError_init "http://127.0.0.1:8000" "Connection refused")
    = None /\
    exists k cause,
      refuses "Connection refused" (plain_get "http://127.0.0.1:8000/table/list")
      = Raise (RequestsError k cause) /\
      Requests.isinstance_ConnectionError k = true) \/
   (cls (YaraConnectionError_init "http://127.0.0.1:8000" "Connection refused")
    <> YaraConnectionError /\
    exists response,
      refuses "Connection refused" (plain_get "http://127.0.0.1:8000/table/list")
      = Return response /\
      status_code (YaraConnectionError_init "http://127.0.0.1:8000" "Connection refused")
      = Some (Requests.status_code response))) /\
  args (YaraConnectionError_init "http://127.0.0.1:8000" "Connection refused")
  = "Status code: "
      ++ str_status
           (status_code (YaraConnectionError_init "http://127.0.0.1:8000" "Connection refused"))
      ++ ", Error: "
      ++ Py.str (message (YaraConnectionError_init "http://127.0.0.1:8000" "Connection refused")).
Proof.
  apply (X9_error_provenance local_client (refuses "Connection refused") CallListTables
           (plain_get "http://127.0.0.1:8000/table/list")
           (YaraConnectionError_init "http://127.0.0.1:8000" "Connection refused")).
  - intros req e H. injection H as <-. eexists. eexists. reflexivity.
  - reflexivity.
  - reflexivity.
Defined.

(** X10. The message of an error is a string, with one exception: when the
    server answers with a status other than 200 and 422 and a mapping whose
    [detail] is not a string, the message is that value as it is (a list, a
    mapping, a number, [None]). At 422, for a connection failure and for an
    undecodable body the message is always a string. *)
Theorem X10_message_is_text_unless_detail_is_not :
  forall (self : YaraClient) (server : Requests.Request -> result Requests.Response)
         (c : Call) (req : Requests.Request) (e : YaraErrorObject),
    raises_only_requests_errors server ->
    requests_sent server (invoke self c) = [req] ->
    outcome server (invoke self c) = Raise (Yara e) ->
    (exists s, message e = JStr s) \/
    (exists response d v,
        server req = Return response /\
        Requests.status_code response <> 200%Z /\
        Requests.status_code response <> 422%Z /\
        Requests.decoded response = Requests.Json (JDict d) /\
        dict_lookup d "detail" = Some v /\
        message e = v).
Proof.
  intros self server c req e Honly Hsent Hout.
  destruct (server req) as [response | x] eqn:Hanswer.
  - rewrite (outcome_of_response self server c req response Hsent Hanswer) in Hout.
    destruct (handle_response_error response e Hout)
      as (_ & _ & _ & [Htext | (N200 & N422 & d & v & Hdec & Hl & Hm)]).
    + left. exact Htext.
    + right. exists response, d, v. repeat split; assumption.
  - rewrite (outcome_of_exception self server c req x Hsent Hanswer) in Hout.
    destruct (Honly req x Hanswer) as (k & cause & ->).
    destruct (Requests.isinstance_ConnectionError k); [| discriminate].
    injection Hout as <-. left. eexists. reflexivity.
Qed.

Lemma X10_witness :
  (exists s,
      message (YaraError_init YaraBadRequestError (JList [JStr "name"; JStr "missing"])
                 (Some 400%Z)) = JStr s) \/
  (exists response d v,
      answers detail_list_400 (plain_get "http://127.0.0.1:8000/table/users")
      = Return response /\
      Requests.status_code response <> 200%Z /\
      Requests.status_code response <> 422%Z /\
      Requests.decoded response = Requests.Json (JDict d) /\
      dict_lookup d "detail" = Some v /\
      message (YaraError_init YaraBadRequestError (JList [JStr "name"; JStr "missing"])
                 (Some 400%Z)) = v).
Proof.
  apply (X10_message_is_text_unless_detail_is_not local_client (answers detail_list_400)
           (CallGetTable "users") (plain_get "http://127.0.0.1:8000/table/users")
           (YaraError_init YaraBadRequestError (JList [JStr "name"; JStr "missing"])
              (Some 400%Z))).
  - intros req e H. discriminate H.
  - reflexivity.
  - reflexivity.
Defined.

(** ** Beyond the claims: the requests of single operations *)

(** X11. [find] posts the filter itself as the JSON body, not wrapped in
    another mapping, and sends [include_archived] as the only query
    parameter: the flag given, or [False] when none is given. *)
Theorem X11_find_request :
  forall (self : YaraClient) (server : Requests.Request -> result Requests.Response)
         (filter_body : dict) (include_archived : option bool),
    requests_sent server (find self filter_body include_archived)
    = [{| Requests.method := "POST";
          Requests.url := host self ++ "/document/find";
          Requests.json := Some (JDict filter_body);
          Requests.params :=
            Some [("include_archived",
                   JBool match include_archived with Some flag => flag | None => false end)];
          Requests.timeout := None |}].
Proof.
  intros self server filter_body include_archived.
  unfold find, session_post, session_request.
  rewrite sent_round_trip. destruct include_archived; reflexivity.
Qed.

(** X12. [self_destruct] checks nothing itself: whatever the phrase and the
    pin, it sends one DELETE to [/system/self-destruct] whose JSON body
    holds the phrase, the pin and the confirmation as given, the
    confirmation being [True] when the caller gives none. *)
Theorem X12_self_destruct_request :
  forall (self : YaraClient) (server : Requests.Request -> result Requests.Response)
         (verification_phrase : string) (safety_pin : Z) (confirm : option bool),
    requests_sent server (self_destruct self verification_phrase safety_pin confirm)
    = [{| Requests.method := "DELETE";
          Requests.url := host self ++ "/system/self-destruct";
          Requests.json :=
            Some (JDict [("verification_phrase", JStr verification_phrase);
                         ("safety_pin", JInt safety_pin);
                         ("confirm",
                          JBool match confirm with Some flag => flag | None => true end)]);
          Requests.params := None;
          Requests.timeout := None |}].
Proof.
  intros self server verification_phrase safety_pin confirm.
  unfold self_destruct, session_request.
  rewrite sent_round_trip. destruct confirm; reflexivity.
Qed.

(** X13. [combine] sends the identifiers in the order given, one text per
    identifier, a string identifier unchanged; an empty list is sent as an
    empty list; a merge strategy that is given is sent as it is. *)
Theorem X13_combine_payload :
  forall (self : YaraClient) (server : Requests.Request -> result Requests.Response)
         (document_ids : list DocId) (name : string) (merge_strategy : option string),
  exists req ids,
    requests_sent server (combine self document_ids name merge_strategy) = [req] /\
    Requests.json req =
    Some (JDict [("name", JStr name); ("document_ids", JList ids);
                 ("merge_strategy",
                  JStr match merge_strategy with
                       | Some strategy => strategy
                       | None => "overwrite"
                       end)]) /\
    List.length ids = List.length document_ids /\
    (forall i doc_id, nth_error document_ids i = Some doc_id ->
                      nth_error ids i = Some (JStr (str_doc_id doc_id))) /\
    (forall i s, nth_error document_ids i = Some (IdStr s) ->
                 nth_error ids i = Some (JStr s)) /\
    (document_ids = [] -> ids = []).
Proof.
  intros self server document_ids name merge_strategy.
  unfold combine, session_post, session_request.
  eexists. eexists. split; [apply sent_round_trip |].
  cbn [Requests.json].
  split; [destruct merge_strategy; reflexivity |].
  split; [apply length_map |].
  split; [intros i doc_id H;
          exact (map_nth_error (fun d => JStr (str_doc_id d)) i document_ids H) |].
  split; [intros i s H;
          exact (map_nth_error (fun d => JStr (str_doc_id d)) i document_ids H) |].
  intros ->. reflexivity.
Qed.

(** ** Beyond the claims: which URL a name leads to *)

Lemma append_cancel_l (s a b : string) : s ++ a = s ++ b -> a = b.
Proof.
  induction s as [| c s IH]; cbn; [auto |].
  intros H. injection H as H. auto.
Qed.

(** X14. The URL of a table tells the name: [get_table] asks for the same
    URL for two names only when the names are equal. It also tells nothing
    else: [get_table] on a name sends the request of [list_tables] exactly
    when the name is [list], and the request of [get_table_documents] on
    another name exactly when the name is that name followed by
    [/documents]; with the name [list] it is the same call as
    [list_tables]. *)
Theorem X14_table_urls :
  forall (self : YaraClient) (server : Requests.Request -> result Requests.Response)
         (name other : string),
    (requests_sent server (get_table self name)
     = requests_sent server (get_table self other) <-> name = other) /\
    (requests_sent server (get_table self name)
     = requests_sent server (list_tables self) <-> name = "list") /\
    (requests_sent server (get_table self name)
     = requests_sent server (get_table_documents self other)
     <-> name = other ++ "/documents") /\
    get_table self "list" = list_tables self.
Proof.
  intros self server name other.
  unfold get_table, list_tables, get_table_documents, session_get, session_request.
  rewrite !sent_round_trip.
  repeat split; try (intros ->; reflexivity); intros H; injection H as H;
    apply append_cancel_l in H.
  - exact (append_cancel_l "/table/" _ _ H).
  - exact (append_cancel_l "/table/" name "list" H).
  - exact (append_cancel_l "/table/" name (other ++ "/documents") H).
Qed.

(** ** Beyond the claims: a UUID can be read back from what is sent *)

(** X15. The text sent for a UUID loses nothing: dropping the hyphens and
    reading the 32 digits in base 16 gives the integer of the UUID back. So
    two UUIDs with the same text are the same, and [get] on two different
    UUIDs never asks for the same URL. *)
Theorem X15_uuid_text_round_trip :
  forall u : Uuid.UUID,
    hex_value (remove_hyphens (Uuid.str u)) = Uuid.int u /\
    (forall u' : Uuid.UUID, Uuid.str u = Uuid.str u' -> Uuid.int u = Uuid.int u') /\
    (forall (self : YaraClient) (server : Requests.Request -> result Requests.Response)
            (u' : Uuid.UUID),
        requests_sent server (get self (IdUUID u))
        = requests_sent server (get self (IdUUID u')) ->
        Uuid.int u = Uuid.int u').
Proof.
  intros u.
  assert (Hback : forall v, hex_value (remove_hyphens (Uuid.str v)) = Uuid.int v).
  { intros v. rewrite remove_hyphens_str. apply hex_value_format_0x. }
  split; [apply Hback |].
  split.
  - intros u' H. rewrite <- (Hback u), <- (Hback u'), H. reflexivity.
  - intros self server u'.
    unfold get, session_get, session_request. rewrite !sent_round_trip.
    intros H. injection H as H.
    apply append_cancel_l in H. apply (append_cancel_l "/document/get/") in H.
    cbn [str_doc_id] in H.
    rewrite <- (Hback u), <- (Hback u'), H. reflexivity.
Qed.

(** ** Beyond the claims: the document is passed through *)

